(** * Hardware Shop ERP backend: inventory ledger and stock reconciliation

    A shallow embedding of [main.py] and [schemas.py]: the request handlers
    [create_item], [create_purchase], [create_sale] and [stock_report], the
    helper [to_oid], the pydantic schemas they use, and the document store
    they talk to.  Quantities are Python floats, that is IEEE 754 binary64
    numbers, and are modelled by Rocq's primitive floats, which are the same
    numbers with the same rounding of [+], [-] and [/]. *)

From Stdlib Require Import ZArith NArith Ascii String Floats Uint63.
From stdpp Require Import gmap strings list.

Local Open Scope string_scope.

(** ** Python builtins *)

Module Py.

(** The exceptions the handlers can raise.  [HTTPException] is FastAPI's,
    [KeyError] is what [d[k]] raises on a dict without the key [k], and
    [ValidationError] is what a pydantic constructor raises. *)
Inductive exn : Type :=
| HTTPException (status_code : Z) (detail : string)
| KeyError (key : string)
| ValidationError (field : string).

(** A computation that returns or raises. *)
Definition result (A : Type) : Type := exn + A.

Definition ok {A} (a : A) : result A := inr a.
Definition raise {A} (e : exn) : result A := inl e.

Definition and_then {A B} (r : result A) (k : A -> result B) : result B :=
  match r with
  | inl e => inl e
  | inr a => k a
  end.

(** [for x in l: acc = f(acc, x)], stopping at the first exception. *)
Fixpoint for_fold {A B} (f : B -> A -> result B) (l : list A) (acc : B)
  : result B :=
  match l with
  | [] => ok acc
  | x :: l' => and_then (f acc x) (for_fold f l')
  end.

(** [a == s] for a value [a] that is a string or [None] ([dict.get] on a
    missing key) and a string literal [s]. *)
Definition eq_str (a : option string) (s : string) : bool :=
  match a with
  | Some t => String.eqb t s
  | None => false
  end.

(** Truth value of a string or [None]: [None] and [""] are falsy. *)
Definition truthy (a : option string) : bool :=
  match a with
  | Some t => negb (String.eqb t "")
  | None => false
  end.

(** [d[k]] on a dict with string keys: [KeyError] when [k] is missing. *)
Definition getitem {V} (d : gmap string V) (k : string) : result V :=
  match d !! k with
  | Some v => ok v
  | None => raise (KeyError k)
  end.

(** [float(d.get(k, 0))] for a field that holds a float when present. *)
Definition float_or_0 (v : option float) : float := default 0%float v.

(** Rounding of the fraction [num / den] ([den > 0]) to the nearest integer,
    ties to the even one. *)
Definition round_half_even (num den : Z) : Z :=
  let q := (num / den)%Z in
  let r := (num mod den)%Z in
  match (2 * r ?= den)%Z with
  | Lt => q
  | Gt => (q + 1)%Z
  | Eq => if Z.even q then q else (q + 1)%Z
  end.

(** [round(x, 2)] on a float.  CPython rounds the exact binary value of [x]
    correctly to two decimals (ties to even) and returns the double nearest
    to that decimal; infinities, NaN and zeros round to themselves.  A
    finite [x] is [m * 2^e] with [m < 2^53].  From [e = -6] on, every double
    is at least [2^46] in magnitude and the spacing of doubles ([>= 2^-6])
    exceeds twice the rounding distance ([0.005]), so the nearest double to
    the rounded decimal is [x] itself.  Below that, the rounded decimal is
    [n / 100] with [n < 2^53], which the float division computes to the
    nearest double. *)
Definition round2 (x : float) : float :=
  match Prim2SF x with
  | S754_finite s m e =>
      if (-7 <? e)%Z then x
      else
        let n := round_half_even (100 * Z.pos m) (2 ^ (- e)) in
        let r := (PrimFloat.of_uint63 (Uint63.of_Z n) / 100)%float in
        if s then (- r)%float else r
  | _ => x
  end.

End Py.

(** ** bson *)

Module Bson.

(** An [ObjectId] is a 12-byte value; [str] prints it as 24 lower-case
    hexadecimal digits. *)
Definition ObjectId : Type := N.

Definition hex_digit (d : N) : ascii :=
  match d with
  | 0%N => "0" | 1%N => "1" | 2%N => "2" | 3%N => "3"
  | 4%N => "4" | 5%N => "5" | 6%N => "6" | 7%N => "7"
  | 8%N => "8" | 9%N => "9" | 10%N => "a" | 11%N => "b"
  | 12%N => "c" | 13%N => "d" | 14%N => "e" | _ => "f"
  end%char.

Fixpoint hex_digits (k : nat) (n : N) (acc : string) : string :=
  match k with
  | O => acc
  | S k' => hex_digits k' (n / 16)%N (String (hex_digit (n mod 16)%N) acc)
  end.

Definition str (o : ObjectId) : string := hex_digits 24 o "".

(** The format the library documents for an [ObjectId] given as a string:
    24 hexadecimal digits. *)
Definition hex_value (c : ascii) : option N :=
  let n := N_of_ascii c in
  if (48 <=? n)%N && (n <=? 57)%N then Some (n - 48)%N
  else if (97 <=? n)%N && (n <=? 102)%N then Some (n - 87)%N
  else if (65 <=? n)%N && (n <=? 70)%N then Some (n - 55)%N
  else None.

Fixpoint of_hex (s : string) (acc : N) : option N :=
  match s with
  | EmptyString => Some acc
  | String c s' =>
      match hex_value c with
      | Some d => of_hex s' (16 * acc + d)%N
      | None => None
      end
  end.

Definition of_str (s : string) : option ObjectId :=
  if Nat.eqb (String.length s) 24 then of_hex s 0%N else None.

End Bson.

(** ** schemas.py *)

(** [datetime] values, as microseconds since the epoch. *)
Definition datetime : Type := Z.

Module Item.
Record t : Type := {
  name : string;
  sku : string;
  category : option string;
  unit : string;
  tax_rate : float;
  cost_price : float;
  sale_price : float;
  reorder_level : Z;
  opening_stock : float;
  barcode : option string;
  is_active : bool
}.

(** The [Field] constraints ([ge], [le]) of the model. *)
Definition validate (p : t) : bool :=
  (0 <=? tax_rate p)%float && (tax_rate p <=? 100)%float
  && (0 <=? cost_price p)%float && (0 <=? sale_price p)%float
  && (0 <=? reorder_level p)%Z && (0 <=? opening_stock p)%float.
End Item.

Module PurchaseItem.
Record t : Type := {
  item_id : string;
  qty : float;
  cost : float;
  tax_rate : float;
  discount : float
}.

Definition validate (l : t) : bool :=
  (0 <? qty l)%float && (0 <=? cost l)%float
  && (0 <=? tax_rate l)%float && (tax_rate l <=? 100)%float
  && (0 <=? discount l)%float.
End PurchaseItem.

Module Purchase.
Record t : Type := {
  vendor_id : string;
  bill_number : option string;
  bill_date : option datetime;
  items : list PurchaseItem.t;
  other_charges : float;
  notes : option string;
  payment_status : string
}.

Definition validate (p : t) : bool := forallb PurchaseItem.validate (items p).
End Purchase.

Module SaleItem.
Record t : Type := {
  item_id : string;
  qty : float;
  price : float;
  discount : float;
  tax_rate : float
}.

Definition validate (l : t) : bool :=
  (0 <? qty l)%float && (0 <=? price l)%float
  && (0 <=? discount l)%float
  && (0 <=? tax_rate l)%float && (tax_rate l <=? 100)%float.
End SaleItem.

Module Sale.
Record t : Type := {
  customer_id : option string;
  invoice_number : option string;
  invoice_date : option datetime;
  items : list SaleItem.t;
  other_charges : float;
  notes : option string;
  payment_status : string
}.

Definition validate (p : t) : bool := forallb SaleItem.validate (items p).
End Sale.

Module StockMovement.
Record t : Type := {
  item_id : string;
  type : string;
  qty : float;
  reason : string;
  ref_type : option string;
  ref_id : option string;
  date : option datetime
}.

(** The constructor [StockMovement(item_id=..., ...)]: pydantic checks
    [qty > 0] and raises otherwise. *)
Definition make (item_id type : string) (qty : float) (reason : string)
    (ref_type ref_id : option string) (date : option datetime)
  : Py.result t :=
  if (0 <? qty)%float then
    Py.ok {| item_id := item_id; type := type; qty := qty; reason := reason;
             ref_type := ref_type; ref_id := ref_id; date := date |}
  else Py.raise (Py.ValidationError "qty").
End StockMovement.

(** ** Stored documents

    A stored document is a dict: the dump of the model it was created from
    plus the [_id] the store gave it.  The handlers read documents with
    [dict.get], which tolerates a missing key, so the fields they read are
    optional here ([None] for a key that is missing or null). *)

Module ItemDoc.
Record t : Type := {
  _id : Bson.ObjectId;
  name : option string;
  sku : option string;
  category : option string;
  unit : option string;
  tax_rate : option float;
  cost_price : option float;
  sale_price : option float;
  reorder_level : option Z;
  opening_stock : option float;
  barcode : option string;
  is_active : option bool
}.

Definition of_model (oid : Bson.ObjectId) (p : Item.t) : t :=
  {| _id := oid;
     name := Some (Item.name p);
     sku := Some (Item.sku p);
     category := Item.category p;
     unit := Some (Item.unit p);
     tax_rate := Some (Item.tax_rate p);
     cost_price := Some (Item.cost_price p);
     sale_price := Some (Item.sale_price p);
     reorder_level := Some (Item.reorder_level p);
     opening_stock := Some (Item.opening_stock p);
     barcode := Item.barcode p;
     is_active := Some (Item.is_active p) |}.
End ItemDoc.

Module PurchaseDoc.
Record t : Type := { _id : Bson.ObjectId; body : Purchase.t }.
End PurchaseDoc.

Module SaleDoc.
Record t : Type := { _id : Bson.ObjectId; body : Sale.t }.
End SaleDoc.

(** The value under [item_id] in a stock movement document: the string the
    API stores, or an [ObjectId] (which [stock_report] also accepts). *)
Inductive id_value : Type :=
| IdStr (s : string)
| IdOid (o : Bson.ObjectId).

Module MovementDoc.
Record t : Type := {
  _id : Bson.ObjectId;
  item_id : option id_value;
  type : option string;
  qty : option float;
  reason : option string;
  ref_type : option string;
  ref_id : option string;
  date : option datetime
}.

Definition of_model (oid : Bson.ObjectId) (m : StockMovement.t) : t :=
  {| _id := oid;
     item_id := Some (IdStr (StockMovement.item_id m));
     type := Some (StockMovement.type m);
     qty := Some (StockMovement.qty m);
     reason := Some (StockMovement.reason m);
     ref_type := StockMovement.ref_type m;
     ref_id := StockMovement.ref_id m;
     date := StockMovement.date m |}.
End MovementDoc.

(** ** database.py *)

Module Database.

(** The collections the handlers below use. *)
Inductive collection : Type := item | purchase | sale | stockmovement.

Definition model (c : collection) : Type :=
  match c with
  | item => Item.t
  | purchase => Purchase.t
  | sale => Sale.t
  | stockmovement => StockMovement.t
  end.

Definition document (c : collection) : Type :=
  match c with
  | item => ItemDoc.t
  | purchase => PurchaseDoc.t
  | sale => SaleDoc.t
  | stockmovement => MovementDoc.t
  end.

(** Modelled from the spec: [database.py] ([db], [create_document],
    [get_documents]) is not among the sources.  The spec describes it as a
    persistent collection store keyed by generated identifiers whose writes
    are serialized.  [db] is a store that is connected: each collection is
    the sequence of its documents in insertion order, and [next_oid] is the
    identifier the next inserted document receives.  Storage failures are
    outside this model. *)
Record db : Type := {
  items : list ItemDoc.t;
  purchases : list PurchaseDoc.t;
  sales : list SaleDoc.t;
  stockmovements : list MovementDoc.t;
  next_oid : Bson.ObjectId
}.

(** A handler: it returns or raises, and leaves the store in a new state
    either way (nothing is rolled back when it raises). *)
Definition M (A : Type) : Type := db -> Py.result A * db.

#[export] Instance M_ret : MRet M := fun A a st => (Py.ok a, st).

#[export] Instance M_bind : MBind M := fun A B k m st =>
  match m st with
  | (inl e, st') => (inl e, st')
  | (inr a, st') => k a st'
  end.

Definition throw {A} (e : Py.exn) : M A := fun st => (Py.raise e, st).

Definition lift {A} (r : Py.result A) : M A := fun st => (r, st).

(** [list(coll(name).find({}))]: every document, in insertion order. *)
Definition find_all (c : collection) : M (list (document c)) :=
  match c return M (list (document c)) with
  | item => fun st => (Py.ok (items st), st)
  | purchase => fun st => (Py.ok (purchases st), st)
  | sale => fun st => (Py.ok (sales st), st)
  | stockmovement => fun st => (Py.ok (stockmovements st), st)
  end.

(** [coll("item").find_one({"sku": sku})]: the first item document whose
    [sku] field equals [sku], or [None]. *)
Definition find_one_sku (sku : string) : M (option ItemDoc.t) :=
  fun st => (Py.ok (List.find (fun d => Py.eq_str (ItemDoc.sku d) sku) (items st)), st).

(** Modelled from the spec: [create_document(name, data)] stores the dump of
    [data] under a fresh identifier at the end of the collection [name] and
    returns that identifier as a string. *)
Definition create_document (c : collection) : model c -> M string :=
  match c return model c -> M string with
  | item => fun data st =>
      let oid := next_oid st in
      (Py.ok (Bson.str oid),
       {| items := items st ++ [ItemDoc.of_model oid data];
          purchases := purchases st;
          sales := sales st;
          stockmovements := stockmovements st;
          next_oid := N.succ oid |})
  | purchase => fun data st =>
      let oid := next_oid st in
      (Py.ok (Bson.str oid),
       {| items := items st;
          purchases := purchases st ++ [PurchaseDoc.Build_t oid data];
          sales := sales st;
          stockmovements := stockmovements st;
          next_oid := N.succ oid |})
  | sale => fun data st =>
      let oid := next_oid st in
      (Py.ok (Bson.str oid),
       {| items := items st;
          purchases := purchases st;
          sales := sales st ++ [SaleDoc.Build_t oid data];
          stockmovements := stockmovements st;
          next_oid := N.succ oid |})
  | stockmovement => fun data st =>
      let oid := next_oid st in
      (Py.ok (Bson.str oid),
       {| items := items st;
          purchases := purchases st;
          sales := sales st;
          stockmovements := stockmovements st ++ [MovementDoc.of_model oid data];
          next_oid := N.succ oid |})
  end.

End Database.

(** ** main.py *)

Module IdModel.
Record t : Type := { id : string }.
End IdModel.

(** One record of the stock report. *)
Module StockRow.
Record t : Type := {
  item_id : string;
  name : option string;
  sku : option string;
  on_hand : float;
  unit : string
}.
End StockRow.

Module Main.
Import Database.

Section Helpers.

(** [ObjectId(id_str)] of the bson library on a string: [None] when it
    raises. *)
Variable ObjectId : string -> option Bson.ObjectId.

Definition to_oid (id_str : string) : Py.result Bson.ObjectId :=
  match ObjectId id_str with
  | Some o => Py.ok o
  | None => Py.raise (Py.HTTPException 400 "Invalid id")
  end.

End Helpers.

Definition create_item (payload : Item.t) : M IdModel.t :=
  existing ← find_one_sku (Item.sku payload);
  match existing with
  | Some _ => throw (Py.HTTPException 400 "SKU already exists")
  | None =>
      new_id ← create_document item payload;
      mret {| IdModel.id := new_id |}
  end.

(** [for x in l: body], where [body] also receives the number of the
    iteration. *)
Fixpoint for_each {A} (body : nat -> A -> M unit) (i : nat) (l : list A)
  : M unit :=
  match l with
  | [] => mret tt
  | x :: l' => body i x ;; for_each body (S i) l'
  end.

Section Ledger.

(** [utcnow i] is what [datetime.utcnow()] returns in iteration [i] of the
    loop over the lines. *)
Variable utcnow : nat -> datetime.

Definition create_purchase (payload : Purchase.t) : M IdModel.t :=
  purchase_id ← create_document purchase payload;
  for_each (fun i line =>
    movement ← lift (StockMovement.make
                       (PurchaseItem.item_id line) "in" (PurchaseItem.qty line)
                       "purchase" (Some "purchase") (Some purchase_id)
                       (Some (utcnow i)));
    create_document stockmovement movement ;;
    mret tt) 0 (Purchase.items payload) ;;
  mret {| IdModel.id := purchase_id |}.

Definition create_sale (payload : Sale.t) : M IdModel.t :=
  sale_id ← create_document sale payload;
  for_each (fun i line =>
    movement ← lift (StockMovement.make
                       (SaleItem.item_id line) "out" (SaleItem.qty line)
                       "sale" (Some "sale") (Some sale_id)
                       (Some (utcnow i)));
    create_document stockmovement movement ;;
    mret tt) 0 (Sale.items payload) ;;
  mret {| IdModel.id := sale_id |}.

End Ledger.

(** [str(it.get("_id"))]. *)
Definition item_key_of (it : ItemDoc.t) : string := Bson.str (ItemDoc._id it).

(** [str(m.get("item_id")) if isinstance(m.get("item_id"), ObjectId)
     else m.get("item_id")]. *)
Definition movement_key (m : MovementDoc.t) : option string :=
  match MovementDoc.item_id m with
  | Some (IdOid o) => Some (Bson.str o)
  | Some (IdStr s) => Some s
  | None => None
  end.

(** The first loop of [stock_report]: every item starts at its opening
    stock. *)
Definition opening_map (items : list ItemDoc.t) : gmap string float :=
  fold_left
    (fun qty_map it =>
       <[item_key_of it := Py.float_or_0 (ItemDoc.opening_stock it)]> qty_map)
    items ∅.

(** The body of the second loop, for one movement [m].  Past the [continue]
    the key is a non-empty string.  [qty_map.get(item_key, 0)] is the int 0
    for a new key; it is stored here as the float 0.0, to which Python
    converts it in [0 + x], and which is all a later read can tell. *)
Definition tally (qty_map : gmap string float) (m : MovementDoc.t)
  : Py.result (gmap string float) :=
  let item_key := movement_key m in
  if negb (Py.truthy item_key) then Py.ok qty_map
  else
    let k := default "" item_key in
    let qty_map := <[k := default 0%float (qty_map !! k)]> qty_map in
    if Py.eq_str (MovementDoc.type m) "in" then
      Py.and_then (Py.getitem qty_map k) (fun v =>
      Py.ok (<[k := (v + Py.float_or_0 (MovementDoc.qty m))%float]> qty_map))
    else if Py.eq_str (MovementDoc.type m) "out" then
      Py.and_then (Py.getitem qty_map k) (fun v =>
      Py.ok (<[k := (v - Py.float_or_0 (MovementDoc.qty m))%float]> qty_map))
    else Py.ok qty_map.

(** The body of the third loop: the record appended for the item [it]. *)
Definition report_row (qty_map : gmap string float) (it : ItemDoc.t)
  : StockRow.t :=
  let key := item_key_of it in
  {| StockRow.item_id := key;
     StockRow.name := ItemDoc.name it;
     StockRow.sku := ItemDoc.sku it;
     StockRow.on_hand := Py.round2 (default 0%float (qty_map !! key));
     StockRow.unit := default "pcs" (ItemDoc.unit it) |}.

(** [stock_report] once [items] and [movements] are read. *)
Definition compute_stock_report
    (items : list ItemDoc.t) (movements : list MovementDoc.t)
  : Py.result (list StockRow.t) :=
  Py.and_then (Py.for_fold tally movements (opening_map items)) (fun qty_map =>
  Py.ok (map (report_row qty_map) items)).

Definition stock_report : M (list StockRow.t) :=
  items ← find_all item;
  movements ← find_all stockmovement;
  lift (compute_stock_report items movements).

End Main.

(** * Vocabulary of the claims *)

Import Database Main.
Local Open Scope list_scope.

(** ** The stock report, one key at a time *)

(** [qty_map.get(k, 0)]. *)
Definition balance (qty_map : gmap string float) (k : string) : float :=
  default 0%float (qty_map !! k).

(** The movement [m] is keyed to [k]: its item key is [k] and is truthy. *)
Definition posts_to (k : string) (m : MovementDoc.t) : bool :=
  bool_decide (movement_key m = Some k) && negb (String.eqb k "").

(** What a movement does to the balance [v] of the key it is keyed to. *)
Definition post (v : float) (m : MovementDoc.t) : float :=
  if Py.eq_str (MovementDoc.type m) "in" then
    (v + Py.float_or_0 (MovementDoc.qty m))%float
  else if Py.eq_str (MovementDoc.type m) "out" then
    (v - Py.float_or_0 (MovementDoc.qty m))%float
  else v.

Definition key_step (k : string) (v : float) (m : MovementDoc.t) : float :=
  if posts_to k m then post v m else v.

(** The balance of [k] after the movements [ms], from the balance [v]. *)
Definition settle (k : string) (ms : list MovementDoc.t) (v : float) : float :=
  fold_left (key_step k) ms v.

(** The record the report holds for the item [it]. *)
Definition reconciled (items : list ItemDoc.t) (ms : list MovementDoc.t)
    (it : ItemDoc.t) : StockRow.t :=
  {| StockRow.item_id := item_key_of it;
     StockRow.name := ItemDoc.name it;
     StockRow.sku := ItemDoc.sku it;
     StockRow.on_hand :=
       Py.round2 (settle (item_key_of it) ms
                    (balance (opening_map items) (item_key_of it)));
     StockRow.unit := default "pcs" (ItemDoc.unit it) |}.

(** The movements of the ledger [ms] that are keyed to [k], in ledger
    order. *)
Definition movements_of (k : string) (ms : list MovementDoc.t)
  : list MovementDoc.t :=
  List.filter (posts_to k) ms.

(** The balance the report accumulates from the opening stock [O] over the
    movements [ms] of one item, in ledger order. *)
Definition ledger_balance (O : float) (ms : list MovementDoc.t) : float :=
  fold_left post ms O.

(** The sum of the quantities of the movements of type [ty] among [ms]. *)
Definition total (ty : string) (ms : list MovementDoc.t) : float :=
  fold_left (fun s m => (s + Py.float_or_0 (MovementDoc.qty m))%float)
    (List.filter (fun m => Py.eq_str (MovementDoc.type m) ty) ms) 0%float.

(** The spec's stock conservation formula: [O + I - T], rounded to two
    decimals, where [I] and [T] are the totals of the "in" and of the "out"
    movements [ms] of the item. *)
Definition conserved (O : float) (ms : list MovementDoc.t) : float :=
  Py.round2 (O + total "in" ms - total "out" ms)%float.

(** ** The ledger engine *)

(** What the loop over the lines of a purchase or sale stores: the store
    [st] with the movement documents [new] appended. *)
Definition appended (st st' : db) (new : list MovementDoc.t) : Prop :=
  items st' = items st ∧ purchases st' = purchases st
  ∧ sales st' = sales st
  ∧ stockmovements st' = stockmovements st ++ new.

(** The movement document of one line: the fields the ledger engine sets. *)
Definition recorded (item_id : string) (qty : float)
    (type reason ref_type ref_id : string) (m : MovementDoc.t) : Prop :=
  MovementDoc.item_id m = Some (IdStr item_id)
  ∧ MovementDoc.qty m = Some qty
  ∧ MovementDoc.type m = Some type
  ∧ MovementDoc.reason m = Some reason
  ∧ MovementDoc.ref_type m = Some ref_type
  ∧ MovementDoc.ref_id m = Some ref_id.

(** ** Requests served one after the other *)

(** The requests of the routes modelled here: [POST /items],
    [POST /purchases], [POST /sales] and [GET /stock].  A posted purchase or
    sale comes with the clock readings of its handler. *)
Inductive request : Type :=
| PostItem (payload : Item.t)
| PostPurchase (utcnow : nat → datetime) (payload : Purchase.t)
| PostSale (utcnow : nat → datetime) (payload : Sale.t)
| GetStock.

(** The body of the request passes the validation of its schema, which
    FastAPI runs before it calls the handler. *)
Definition passes_validation (r : request) : bool :=
  match r with
  | PostItem payload => Item.validate payload
  | PostPurchase _ payload => Purchase.validate payload
  | PostSale _ payload => Sale.validate payload
  | GetStock => true
  end.

(** The store after the handler of the request [r] ran on [st], whether it
    returned or raised. *)
Definition serve (r : request) (st : db) : db :=
  match r with
  | PostItem payload => snd (create_item payload st)
  | PostPurchase utcnow payload => snd (create_purchase utcnow payload st)
  | PostSale utcnow payload => snd (create_sale utcnow payload st)
  | GetStock => snd (stock_report st)
  end.

Definition serve_all (rs : list request) (st : db) : db :=
  fold_left (fun st r => serve r st) rs st.

(** The balance [b] of the key [k] after the lines of a purchase were
    received, and after the lines of a sale were issued, in line order. *)
Definition received (k : string) (lines : list PurchaseItem.t) (b : float)
  : float :=
  fold_left
    (fun b line =>
       if String.eqb (PurchaseItem.item_id line) k
       then (b + PurchaseItem.qty line)%float else b)
    lines b.

Definition issued (k : string) (lines : list SaleItem.t) (b : float)
  : float :=
  fold_left
    (fun b line =>
       if String.eqb (SaleItem.item_id line) k
       then (b - SaleItem.qty line)%float else b)
    lines b.

(** The movement [m] stems from a line of a stored purchase: it carries the
    line's item and quantity as an "in" movement and refers to the
    purchase's id.  Likewise for a sale and an "out" movement. *)
Definition from_purchase (st : db) (m : MovementDoc.t) : Prop :=
  ∃ d line, In d (purchases st)
    ∧ In line (Purchase.items (PurchaseDoc.body d))
    ∧ recorded (PurchaseItem.item_id line) (PurchaseItem.qty line)
        "in" "purchase" "purchase" (Bson.str (PurchaseDoc._id d)) m.

Definition from_sale (st : db) (m : MovementDoc.t) : Prop :=
  ∃ d line, In d (sales st)
    ∧ In line (Sale.items (SaleDoc.body d))
    ∧ recorded (SaleItem.item_id line) (SaleItem.qty line)
        "out" "sale" "sale" (Bson.str (SaleDoc._id d)) m.

(** The number of lines of all stored purchases and sales. *)
Definition lines_on_file (st : db) : nat :=
  list_sum (map (fun d => length (Purchase.items (PurchaseDoc.body d)))
              (purchases st))
  + list_sum (map (fun d => length (Sale.items (SaleDoc.body d)))
                (sales st)).

(** * Sample data *)

Definition empty_store : db :=
  {| items := []; purchases := []; sales := []; stockmovements := [];
     next_oid := 0%N |}.

Definition sample_clock (i : nat) : datetime := Z.of_nat i.

Definition sample_model (name sku : string) (opening : float) : Item.t :=
  {| Item.name := name; Item.sku := sku; Item.category := None;
     Item.unit := "pcs"; Item.tax_rate := 0%float;
     Item.cost_price := 0%float; Item.sale_price := 0%float;
     Item.reorder_level := 0%Z; Item.opening_stock := opening;
     Item.barcode := None; Item.is_active := true |}.

Definition sample_item (oid : Bson.ObjectId) (name sku : string)
    (opening : float) : ItemDoc.t :=
  ItemDoc.of_model oid (sample_model name sku opening).

Definition sample_movement (oid : Bson.ObjectId) (item_id : option id_value)
    (type : option string) (qty : float) : MovementDoc.t :=
  {| MovementDoc._id := oid; MovementDoc.item_id := item_id;
     MovementDoc.type := type; MovementDoc.qty := Some qty;
     MovementDoc.reason := Some "adjust"; MovementDoc.ref_type := None;
     MovementDoc.ref_id := None; MovementDoc.date := None |}.

(** An item with a large opening stock and two receipts of one unit. *)
Definition bulk : ItemDoc.t := sample_item 0%N "Nails" "N-1" 1e16.
Definition bulk_ledger : list MovementDoc.t :=
  [ sample_movement 1%N (Some (IdStr (Bson.str 0%N))) (Some "in") 1;
    sample_movement 2%N (Some (IdStr (Bson.str 0%N))) (Some "in") 1 ].

(** A movement of type "transfer" for the sample item. *)
Definition transfer : MovementDoc.t :=
  sample_movement 3%N (Some (IdStr (Bson.str 0%N))) (Some "transfer") 7.

(** A receipt of five units that names no item. *)
Definition unkeyed : MovementDoc.t :=
  sample_movement 4%N (Some (IdStr "")) (Some "in") 5.

Definition purchase_line (item_id : string) (qty : float) : PurchaseItem.t :=
  {| PurchaseItem.item_id := item_id; PurchaseItem.qty := qty;
     PurchaseItem.cost := 2%float; PurchaseItem.tax_rate := 0%float;
     PurchaseItem.discount := 0%float |}.

Definition sample_purchase (vendor_id : string) (lines : list PurchaseItem.t)
  : Purchase.t :=
  {| Purchase.vendor_id := vendor_id; Purchase.bill_number := None;
     Purchase.bill_date := None; Purchase.items := lines;
     Purchase.other_charges := 0%float; Purchase.notes := None;
     Purchase.payment_status := "unpaid" |}.

Definition sale_line (item_id : string) (qty : float) : SaleItem.t :=
  {| SaleItem.item_id := item_id; SaleItem.qty := qty;
     SaleItem.price := 3%float; SaleItem.discount := 0%float;
     SaleItem.tax_rate := 0%float |}.

Definition sample_sale (customer_id : option string) (lines : list SaleItem.t)
  : Sale.t :=
  {| Sale.customer_id := customer_id; Sale.invoice_number := None;
     Sale.invoice_date := None; Sale.items := lines;
     Sale.other_charges := 0%float; Sale.notes := None;
     Sale.payment_status := "unpaid" |}.

Definition two_line_purchase : Purchase.t :=
  sample_purchase "vendor-1"
    [purchase_line (Bson.str 0%N) 5; purchase_line (Bson.str 7%N) 2].

Definition one_line_sale : Sale.t :=
  sample_sale None [sale_line (Bson.str 0%N) 3].

(** A purchase and a sale whose identifiers are not ObjectIds. *)
Definition malformed_purchase : Purchase.t :=
  sample_purchase "not-an-id" [purchase_line "no-such-item" 1].

Definition malformed_sale : Sale.t :=
  sample_sale (Some "not-an-id") [sale_line "no-such-item" 1].

(** A store with an item of opening stock 0 whose only movement so far is
    a "transfer", and a receipt for another item. *)
Definition fresh_store : db :=
  {| items := [sample_item 0%N "Hinge" "HG-1" 0];
     purchases := []; sales := [];
     stockmovements :=
       [transfer;
        sample_movement 5%N (Some (IdStr (Bson.str 9%N))) (Some "in") 4];
     next_oid := 10%N |}.

(** A second item, a movement for it, and a morning of requests. *)
Definition screws : ItemDoc.t := sample_item 6%N "Screws" "S-1" 40.

Definition screws_receipt : MovementDoc.t :=
  sample_movement 7%N (Some (IdOid 6%N)) (Some "in") 8.

Definition morning : list request :=
  [ PostItem (sample_model "Hammer" "H-1" 10);
    PostItem (sample_model "Claw hammer" "H-1" 0);
    PostPurchase sample_clock two_line_purchase;
    GetStock;
    PostSale sample_clock one_line_sale ].

(** * Properties *)

(** ** The stock reconciler, one key at a time *)

Lemma getitem_insert {V} (d : gmap string V) k v :
  Py.getitem (<[k := v]> d) k = inr v.
Proof. unfold Py.getitem. by rewrite lookup_insert_eq. Qed.

Lemma balance_insert_eq (d : gmap string float) k v :
  balance (<[k := v]> d) k = v.
Proof. unfold balance. by rewrite lookup_insert_eq. Qed.

Lemma balance_insert_ne (d : gmap string float) k k' v :
  k ≠ k' → balance (<[k := v]> d) k' = balance d k'.
Proof. intros. unfold balance. by rewrite lookup_insert_ne. Qed.

Lemma posts_to_true k m :
  posts_to k m = true ↔ movement_key m = Some k ∧ k ≠ "".
Proof.
  unfold posts_to. rewrite andb_true_iff, bool_decide_eq_true, negb_true_iff.
  by rewrite String.eqb_neq.
Qed.

(** One round of the second loop never raises, and moves only the balance of
    the key the movement is keyed to. *)
Lemma tally_spec qty_map m :
  ∃ qty_map', tally qty_map m = inr qty_map'
    ∧ ∀ k, balance qty_map' k = key_step k (balance qty_map k) m.
Proof.
  unfold tally, key_step.
  destruct (movement_key m) as [k0|] eqn:Hkey; simpl.
  - destruct (String.eqb k0 "") eqn:Hk0; simpl.
    + exists qty_map. split; [done|]. intros k.
      destruct (posts_to k m) eqn:Hp; [|done].
      apply posts_to_true in Hp as [Hp Hne]. rewrite Hkey in Hp.
      apply String.eqb_eq in Hk0. congruence.
    + apply String.eqb_neq in Hk0.
      assert (Hposts : ∀ k, posts_to k m = bool_decide (k0 = k)).
      { intros k. unfold posts_to. rewrite Hkey.
        destruct (decide (k0 = k)) as [<-|Hne].
        - rewrite !bool_decide_eq_true_2 by done.
          apply String.eqb_neq in Hk0. by rewrite Hk0.
        - rewrite !bool_decide_eq_false_2 by congruence. done. }
      unfold post. rewrite !getitem_insert. simpl.
      destruct (Py.eq_str (MovementDoc.type m) "in");
        [|destruct (Py.eq_str (MovementDoc.type m) "out")];
        (eexists; split; [reflexivity|]); intros k; rewrite Hposts;
        (destruct (decide (k0 = k)) as [<-|Hne];
         [rewrite bool_decide_eq_true_2 by done
         |rewrite bool_decide_eq_false_2 by done]);
        rewrite ?balance_insert_eq, ?balance_insert_ne by done; done.
  - exists qty_map. split; [done|]. intros k.
    destruct (posts_to k m) eqn:Hp; [|done].
    apply posts_to_true in Hp as [Hp _]. congruence.
Qed.

(** The second loop never raises, and settles every key independently. *)
Lemma for_fold_tally ms : ∀ qty_map,
  ∃ qty_map', Py.for_fold tally ms qty_map = inr qty_map'
    ∧ ∀ k, balance qty_map' k = settle k ms (balance qty_map k).
Proof.
  induction ms as [|m ms IH]; intros qty_map; simpl.
  - by exists qty_map.
  - destruct (tally_spec qty_map m) as (q1 & -> & H1). simpl.
    destruct (IH q1) as (q2 & -> & H2).
    exists q2. split; [done|]. intros k. by rewrite H2, H1.
Qed.

Lemma compute_stock_report_eq items ms :
  compute_stock_report items ms = inr (map (reconciled items ms) items).
Proof.
  unfold compute_stock_report.
  destruct (for_fold_tally ms (opening_map items)) as (q & -> & Hq). simpl.
  f_equal. apply map_ext. intros it.
  unfold report_row, reconciled. f_equal. f_equal. apply Hq.
Qed.

Lemma settle_app k ms1 ms2 v :
  settle k (ms1 ++ ms2) v = settle k ms2 (settle k ms1 v).
Proof. apply fold_left_app. Qed.

(** A movement that leaves the balance of every item key alone can be
    dropped from the ledger without changing the report. *)
Lemma report_skip items ms1 m ms2 :
  (∀ it v, In it items → key_step (item_key_of it) v m = v) →
  compute_stock_report items (ms1 ++ m :: ms2)
  = compute_stock_report items (ms1 ++ ms2).
Proof.
  intros Hm. rewrite !compute_stock_report_eq. f_equal.
  apply map_ext_in. intros it Hit. unfold reconciled. do 2 f_equal.
  rewrite !settle_app. simpl. unfold settle at 2 4. simpl.
  by rewrite Hm.
Qed.

Lemma eq_str_false a s : a ≠ Some s → Py.eq_str a s = false.
Proof.
  destruct a as [t|]; simpl; [|done]. intros Hne.
  apply String.eqb_neq. congruence.
Qed.

Lemma key_step_other_type k v m :
  MovementDoc.type m ≠ Some "in" → MovementDoc.type m ≠ Some "out" →
  key_step k v m = v.
Proof.
  intros Hin Hout. unfold key_step, post.
  rewrite (eq_str_false _ _ Hin), (eq_str_false _ _ Hout).
  by destruct (posts_to k m).
Qed.

Lemma posts_to_falsy k m :
  Py.truthy (movement_key m) = false → posts_to k m = false.
Proof.
  intros Hf. destruct (posts_to k m) eqn:Hp; [|done].
  apply posts_to_true in Hp as [Hk Hne]. rewrite Hk in Hf. simpl in Hf.
  apply negb_false_iff, String.eqb_eq in Hf. done.
Qed.

(** [str] of an [ObjectId] has 24 characters, so it is never empty. *)
Lemma hex_digits_length k : ∀ n acc,
  String.length (Bson.hex_digits k n acc) = (k + String.length acc)%nat.
Proof.
  induction k as [|k IH]; intros n acc; simpl; [done|].
  rewrite IH. simpl. lia.
Qed.

Lemma str_length o : String.length (Bson.str o) = 24%nat.
Proof. unfold Bson.str. by rewrite hex_digits_length. Qed.

Lemma str_nonempty o : Bson.str o ≠ "".
Proof. intros H. pose proof (str_length o) as Hl. by rewrite H in Hl. Qed.

Lemma falsy_item_id m :
  MovementDoc.item_id m = None ∨ MovementDoc.item_id m = Some (IdStr "") →
  Py.truthy (movement_key m) = false.
Proof. unfold movement_key. by intros [-> | ->]. Qed.

(** The first loop: a key that no later item has keeps its entry. *)
Lemma opening_fold_other k items : ∀ (acc : gmap string float),
  ¬ In k (map item_key_of items) →
  fold_left
    (fun qty_map it =>
       <[item_key_of it := Py.float_or_0 (ItemDoc.opening_stock it)]> qty_map)
    items acc !! k = acc !! k.
Proof.
  induction items as [|it items IH]; intros acc Hk; simpl in *; [done|].
  rewrite IH by tauto. apply lookup_insert_ne. tauto.
Qed.

Lemma opening_fold_in it items : ∀ (acc : gmap string float),
  List.NoDup (map item_key_of items) → In it items →
  fold_left
    (fun qty_map it =>
       <[item_key_of it := Py.float_or_0 (ItemDoc.opening_stock it)]> qty_map)
    items acc !! item_key_of it
  = Some (Py.float_or_0 (ItemDoc.opening_stock it)).
Proof.
  induction items as [|it0 items IH]; intros acc Hnd Hin; simpl in *; [done|].
  inversion Hnd as [|? ? Hnotin Hnd']; subst.
  destruct Hin as [-> | Hin].
  - rewrite opening_fold_other by done. apply lookup_insert_eq.
  - by apply IH.
Qed.

Lemma opening_map_balance items it :
  List.NoDup (map item_key_of items) → In it items →
  balance (opening_map items) (item_key_of it)
  = Py.float_or_0 (ItemDoc.opening_stock it).
Proof.
  intros Hnd Hin. unfold balance, opening_map.
  by rewrite opening_fold_in.
Qed.

(** The handler reads the two collections and computes the report. *)
Lemma stock_report_run st :
  stock_report st
  = (compute_stock_report (items st) (stockmovements st), st).
Proof. reflexivity. Qed.

(** Settling a key looks only at the movements keyed to it. *)
Lemma settle_filter k ms : ∀ v,
  settle k ms v = fold_left post (List.filter (posts_to k) ms) v.
Proof.
  induction ms as [|m ms IH]; intros v; simpl; [done|].
  unfold settle in *. simpl. rewrite IH. unfold key_step.
  by destruct (posts_to k m).
Qed.

Lemma settle_cons k m ms v :
  settle k (m :: ms) v = settle k ms (key_step k v m).
Proof. reflexivity. Qed.

Lemma settle_quiet k ms : ∀ v,
  (∀ m v', In m ms → key_step k v' m = v') → settle k ms v = v.
Proof.
  induction ms as [|m ms IH]; intros v Hms; [done|].
  rewrite settle_cons, Hms by (by left).
  apply IH. intros m' v' Hm'. apply Hms. by right.
Qed.

Lemma settle_none k ms v :
  (∀ m, In m ms → posts_to k m = false) → settle k ms v = v.
Proof.
  intros Hms. apply settle_quiet. intros m v' Hm. unfold key_step.
  by rewrite Hms.
Qed.

Lemma posts_to_other k m :
  movement_key m ≠ Some k → posts_to k m = false.
Proof.
  intros Hne. destruct (posts_to k m) eqn:Hp; [|done].
  by apply posts_to_true in Hp as [Hp _].
Qed.

Lemma float_neq (a b : float) :
  (a =? a)%float = true → (a =? b)%float = false → a ≠ b.
Proof. intros Ha Hab ->. congruence. Qed.

(** ** The handlers on the store *)

Lemma bind_ok {A B} (m : M A) (k : A → M B) st a st' :
  m st = (inr a, st') → (m ≫= k) st = k a st'.
Proof. intros H. unfold mbind, M_bind. by rewrite H. Qed.

(** Runs the first statement of a handler: [run] when it evaluates, [run
    with H] when [H] gives its result. *)
Tactic Notation "run" := erewrite bind_ok; [|reflexivity].
Tactic Notation "run" "with" constr(H) := erewrite bind_ok; [|exact H].

(** The loop of [create_purchase] and [create_sale], for lines whose
    movement passes validation: one document per line, in line order. *)
Lemma for_each_records {A} (mk : nat → A → Py.result StockMovement.t)
    (lines : list A) : ∀ i st,
  Forall (fun line => ∀ j, ∃ mv, mk j line = inr mv) lines →
  ∃ st' new,
    for_each (fun j line =>
                movement ← lift (mk j line);
                create_document stockmovement movement ;; mret tt)
      i lines st = (inr tt, st')
    ∧ appended st st' new
    ∧ Forall2 (fun line m => ∃ j oid mv,
                 mk j line = inr mv ∧ m = MovementDoc.of_model oid mv)
        lines new.
Proof.
  induction lines as [|line lines IH]; intros i st Hok.
  - exists st, []. unfold appended. rewrite app_nil_r. by repeat split.
  - inversion Hok as [|? ? Hline Hrest]; subst.
    destruct (Hline i) as (mv & Hmv).
    set (st1 := snd (create_document stockmovement mv st)).
    destruct (IH (S i) st1 Hrest) as (st' & new & Hrun & Happ & Hall).
    exists st', (MovementDoc.of_model (next_oid st) mv :: new).
    split; [|split].
    + cbn [for_each].
      erewrite bind_ok; [exact Hrun|].
      erewrite bind_ok; [|unfold lift; by rewrite Hmv].
      run. reflexivity.
    + destruct Happ as (Hi & Hp & Hs & Hm). subst st1. simpl in *.
      unfold appended. rewrite Hi, Hp, Hs, Hm, <- app_assoc. done.
    + constructor; [|done]. by exists i, (next_oid st), mv.
Qed.

Lemma make_recorded item_id type qty reason ref_type ref_id date mv oid :
  StockMovement.make item_id type qty reason (Some ref_type) (Some ref_id) date
  = inr mv →
  recorded item_id qty type reason ref_type ref_id
    (MovementDoc.of_model oid mv).
Proof.
  unfold StockMovement.make. destruct (0 <? qty)%float; [|done].
  intros [= <-]. by repeat split.
Qed.

Lemma make_ok item_id type qty reason ref_type ref_id date :
  (0 <? qty)%float = true →
  ∃ mv, StockMovement.make item_id type qty reason ref_type ref_id date
        = inr mv.
Proof. intros Hq. unfold StockMovement.make. rewrite Hq. by eexists. Qed.

Lemma purchase_lines_valid payload :
  Purchase.validate payload = true →
  Forall (fun line => (0 <? PurchaseItem.qty line)%float = true)
    (Purchase.items payload).
Proof.
  unfold Purchase.validate. rewrite forallb_forall, List.Forall_forall.
  intros H line Hin. apply H in Hin. unfold PurchaseItem.validate in Hin.
  rewrite !andb_true_iff in Hin. tauto.
Qed.

Lemma sale_lines_valid payload :
  Sale.validate payload = true →
  Forall (fun line => (0 <? SaleItem.qty line)%float = true)
    (Sale.items payload).
Proof.
  unfold Sale.validate. rewrite forallb_forall, List.Forall_forall.
  intros H line Hin. apply H in Hin. unfold SaleItem.validate in Hin.
  rewrite !andb_true_iff in Hin. tauto.
Qed.

Lemma create_purchase_run utcnow payload st :
  Forall (fun line => (0 <? PurchaseItem.qty line)%float = true)
    (Purchase.items payload) →
  ∃ st' new,
    create_purchase utcnow payload st
    = (inr {| IdModel.id := Bson.str (next_oid st) |}, st')
    ∧ items st' = items st
    ∧ purchases st'
      = purchases st ++ [PurchaseDoc.Build_t (next_oid st) payload]
    ∧ sales st' = sales st
    ∧ stockmovements st' = stockmovements st ++ new
    ∧ Forall2 (fun line m =>
                 recorded (PurchaseItem.item_id line) (PurchaseItem.qty line)
                   "in" "purchase" "purchase" (Bson.str (next_oid st)) m)
        (Purchase.items payload) new.
Proof.
  intros Hok. unfold create_purchase.
  set (st1 := snd (create_document purchase payload st)).
  set (mk := fun (j : nat) line =>
         StockMovement.make (PurchaseItem.item_id line) "in"
           (PurchaseItem.qty line) "purchase" (Some "purchase")
           (Some (Bson.str (next_oid st))) (Some (utcnow j))).
  destruct (for_each_records mk (Purchase.items payload) 0 st1)
    as (st' & new & Hrun & (Hi & Hp & Hs & Hm) & Hall).
  { eapply Forall_impl; [exact Hok|]. intros line Hq j. by apply make_ok. }
  exists st', new. split; [|repeat split; try done].
  - run. run with Hrun. reflexivity.
  - eapply Forall2_impl; [exact Hall|].
    intros line m (j & oid & mv & Hmk & ->). by eapply make_recorded.
Qed.

Lemma create_sale_run utcnow payload st :
  Forall (fun line => (0 <? SaleItem.qty line)%float = true)
    (Sale.items payload) →
  ∃ st' new,
    create_sale utcnow payload st
    = (inr {| IdModel.id := Bson.str (next_oid st) |}, st')
    ∧ items st' = items st
    ∧ purchases st' = purchases st
    ∧ sales st' = sales st ++ [SaleDoc.Build_t (next_oid st) payload]
    ∧ stockmovements st' = stockmovements st ++ new
    ∧ Forall2 (fun line m =>
                 recorded (SaleItem.item_id line) (SaleItem.qty line)
                   "out" "sale" "sale" (Bson.str (next_oid st)) m)
        (Sale.items payload) new.
Proof.
  intros Hok. unfold create_sale.
  set (st1 := snd (create_document sale payload st)).
  set (mk := fun (j : nat) line =>
         StockMovement.make (SaleItem.item_id line) "out"
           (SaleItem.qty line) "sale" (Some "sale")
           (Some (Bson.str (next_oid st))) (Some (utcnow j))).
  destruct (for_each_records mk (Sale.items payload) 0 st1)
    as (st' & new & Hrun & (Hi & Hp & Hs & Hm) & Hall).
  { eapply Forall_impl; [exact Hok|]. intros line Hq j. by apply make_ok. }
  exists st', new. split; [|repeat split; try done].
  - run. run with Hrun. reflexivity.
  - eapply Forall2_impl; [exact Hall|].
    intros line m (j & oid & mv & Hmk & ->). by eapply make_recorded.
Qed.

Lemma recorded_key item_id qty type reason ref_type ref_id m :
  recorded item_id qty type reason ref_type ref_id m →
  movement_key m = Some item_id.
Proof. intros (Hid & _). unfold movement_key. by rewrite Hid. Qed.

Lemma find_one_sku_none sku st :
  (∀ d, In d (items st) → ItemDoc.sku d ≠ Some sku) →
  find_one_sku sku st = (inr None, st).
Proof.
  intros Hnone. unfold find_one_sku. do 2 f_equal.
  destruct (find _ _) as [d|] eqn:Hfind; [|done].
  apply find_some in Hfind as [Hin Heq]. apply Hnone in Hin.
  by rewrite (eq_str_false _ _ Hin) in Heq.
Qed.

Lemma find_one_sku_some sku st d :
  In d (items st) → ItemDoc.sku d = Some sku →
  ∃ d', find_one_sku sku st = (inr (Some d'), st).
Proof.
  intros Hin Hsku. unfold find_one_sku.
  destruct (find _ _) as [d'|] eqn:Hfind; [by eexists|].
  eapply find_none in Hfind; [|exact Hin]. simpl in Hfind.
  rewrite Hsku in Hfind. simpl in Hfind. by rewrite String.eqb_refl in Hfind.
Qed.

(** ** Roundings and the spec's scenario, evaluated *)

(** [round(0.125, 2) == 0.12] and [round(0.375, 2) == 0.38] (exact ties go
    to the even digit), [round(2.675, 2) == 2.67] (the double written 2.675
    lies below the tie), [round(-100.0, 2) == -100.0]. *)
Example round2_values :
  Py.round2 0.125 = (12 / 100)%float
  ∧ Py.round2 0.375 = (38 / 100)%float
  ∧ Py.round2 0x1.5666666666666p+1 = (267 / 100)%float
  ∧ Py.round2 (-100) = (-100)%float
  ∧ Py.round2 1e16 = 1e16%float.
Proof. repeat split; vm_compute; reflexivity. Qed.

(** Item A with opening stock 10: after a purchase of 5 units the report
    shows 15, after a sale of 3 units it shows 12. *)
Example scenario_purchase_then_sale :
  let row on_hand :=
    {| StockRow.item_id := Bson.str 0%N; StockRow.name := Some "Hammer";
       StockRow.sku := Some "H-1"; StockRow.on_hand := on_hand;
       StockRow.unit := "pcs" |} in
  let st1 := snd (create_item (sample_model "Hammer" "H-1" 10) empty_store) in
  let st2 :=
    snd (create_purchase sample_clock
           (sample_purchase "vendor-1" [purchase_line (Bson.str 0%N) 5]) st1) in
  let st3 := snd (create_sale sample_clock one_line_sale st2) in
  fst (stock_report st1) = inr [row 10%float]
  ∧ fst (stock_report st2) = inr [row 15%float]
  ∧ fst (stock_report st3) = inr [row 12%float].
Proof. repeat split; vm_compute; reflexivity. Qed.

(** ** Claims about the stock report *)

(** C1, as the code has it: for an item with opening stock [O] (and a key no
    other item has), the report holds a record whose [on_hand] is the float
    balance obtained from [O] by adding each "in" quantity and subtracting
    each "out" quantity of the item's movements one after the other in
    ledger order, rounded to two decimals.  With no movement for the item
    this is [O] rounded to two decimals. *)
Theorem stock_report_on_hand items ms it :
  List.NoDup (map item_key_of items) → In it items →
  ∃ rows, compute_stock_report items ms = inr rows
    ∧ (∃ r, In r rows ∧ StockRow.item_id r = item_key_of it)
    ∧ (∀ r, In r rows → StockRow.item_id r = item_key_of it →
         StockRow.on_hand r
         = Py.round2 (ledger_balance (Py.float_or_0 (ItemDoc.opening_stock it))
                        (movements_of (item_key_of it) ms)))
    ∧ (movements_of (item_key_of it) ms = [] →
       ∀ r, In r rows → StockRow.item_id r = item_key_of it →
         StockRow.on_hand r
         = Py.round2 (Py.float_or_0 (ItemDoc.opening_stock it))).
Proof.
  intros Hnd Hin. rewrite compute_stock_report_eq. eexists. split; [done|].
  assert (Hrow : ∀ r, In r (map (reconciled items ms) items) →
            StockRow.item_id r = item_key_of it →
            StockRow.on_hand r
            = Py.round2 (ledger_balance
                           (Py.float_or_0 (ItemDoc.opening_stock it))
                           (movements_of (item_key_of it) ms))).
  { intros r Hr Hkey. apply in_map_iff in Hr as (it' & <- & Hit').
    simpl in *. rewrite Hkey, settle_filter.
    by rewrite opening_map_balance. }
  split; [|split].
  - exists (reconciled items ms it). split; [|done]. by apply in_map.
  - exact Hrow.
  - intros Hnone r Hr Hkey. rewrite (Hrow r Hr Hkey), Hnone. done.
Qed.

Lemma stock_report_on_hand_witness :
  ∃ rows, compute_stock_report [bulk] bulk_ledger = inr rows
    ∧ (∃ r, In r rows ∧ StockRow.item_id r = item_key_of bulk)
    ∧ (∀ r, In r rows → StockRow.item_id r = item_key_of bulk →
         StockRow.on_hand r
         = Py.round2 (ledger_balance
                        (Py.float_or_0 (ItemDoc.opening_stock bulk))
                        (movements_of (item_key_of bulk) bulk_ledger)))
    ∧ (movements_of (item_key_of bulk) bulk_ledger = [] →
       ∀ r, In r rows → StockRow.item_id r = item_key_of bulk →
         StockRow.on_hand r
         = Py.round2 (Py.float_or_0 (ItemDoc.opening_stock bulk))).
Proof.
  apply (stock_report_on_hand [bulk] bulk_ledger bulk).
  - apply List.NoDup_cons; [simpl; tauto | apply List.NoDup_nil].
  - simpl. tauto.
Defined.

(** C1, as the spec states it, fails on floats: with an opening stock of
    [1e16] and two "in" movements of [1], the report accumulates
    [(1e16 + 1) + 1 = 1e16], while [O + I - T = 1e16 + 2] is
    [10000000000000002]. *)
Lemma stock_conservation_counterexample :
  ∃ r, compute_stock_report [bulk] bulk_ledger = inr [r]
    ∧ StockRow.item_id r = item_key_of bulk
    ∧ StockRow.on_hand r = 1e16%float
    ∧ conserved (Py.float_or_0 (ItemDoc.opening_stock bulk))
        (movements_of (item_key_of bulk) bulk_ledger)
      = 10000000000000002%float
    ∧ StockRow.on_hand r
      ≠ conserved (Py.float_or_0 (ItemDoc.opening_stock bulk))
          (movements_of (item_key_of bulk) bulk_ledger).
Proof.
  eexists. split; [vm_compute; reflexivity|].
  split; [reflexivity|]. split; [vm_compute; reflexivity|].
  split; [vm_compute; reflexivity|].
  apply float_neq; vm_compute; reflexivity.
Qed.

(** C4: the stock report never raises, whatever the items and movements: it
    returns exactly one record per item, in item order, so a movement whose
    item key matches no item yields no record of its own (and, were it left
    out of the ledger, the report would be the same). *)
Theorem stock_report_never_fails items ms :
  ∃ rows, compute_stock_report items ms = inr rows
    ∧ map StockRow.item_id rows = map item_key_of items
    ∧ (∀ m, In m ms →
         (∀ it, In it items → movement_key m ≠ Some (item_key_of it)) →
         ∀ r, In r rows → movement_key m ≠ Some (StockRow.item_id r))
    ∧ (∀ ms1 m ms2, ms = ms1 ++ m :: ms2 →
         (∀ it, In it items → movement_key m ≠ Some (item_key_of it)) →
         compute_stock_report items (ms1 ++ ms2) = inr rows).
Proof.
  rewrite compute_stock_report_eq. eexists. split; [done|].
  split; [|split].
  - rewrite map_map. by apply map_ext.
  - intros m _ Hm r Hr. apply in_map_iff in Hr as (it & <- & Hit).
    simpl. by apply Hm.
  - intros ms1 m ms2 -> Hm. rewrite <- compute_stock_report_eq.
    symmetry. apply report_skip. intros it v Hit. unfold key_step.
    destruct (posts_to (item_key_of it) m) eqn:Hp; [|done].
    apply posts_to_true in Hp as [Hp _]. by apply Hm in Hit.
Qed.

(** C8: a movement whose type is neither "in" nor "out" is a no-op for the
    report: processing it raises nothing and changes no balance, and the
    report is the one computed without it.  In general a movement changes
    the balance of the key it is keyed to, and only that one: by [+ qty]
    when its type is "in", by [- qty] when it is "out", and not at all
    otherwise. *)
Theorem other_type_is_noop items ms1 m ms2 :
  MovementDoc.type m ≠ Some "in" → MovementDoc.type m ≠ Some "out" →
  (∀ qty_map, ∃ qty_map', tally qty_map m = inr qty_map'
     ∧ ∀ k, balance qty_map' k = balance qty_map k)
  ∧ compute_stock_report items (ms1 ++ m :: ms2)
    = compute_stock_report items (ms1 ++ ms2)
  ∧ (∃ rows, compute_stock_report items (ms1 ++ m :: ms2) = inr rows)
  ∧ (∀ qty_map m', ∃ qty_map', tally qty_map m' = inr qty_map'
     ∧ ∀ k, balance qty_map' k
        = if posts_to k m' then
            if Py.eq_str (MovementDoc.type m') "in" then
              (balance qty_map k + Py.float_or_0 (MovementDoc.qty m'))%float
            else if Py.eq_str (MovementDoc.type m') "out" then
              (balance qty_map k - Py.float_or_0 (MovementDoc.qty m'))%float
            else balance qty_map k
          else balance qty_map k).
Proof.
  intros Hin Hout. split; [|split; [|split]].
  - intros qty_map. destruct (tally_spec qty_map m) as (q & Hq & Hb).
    exists q. split; [done|]. intros k. rewrite Hb.
    by apply key_step_other_type.
  - apply report_skip. intros it v _. by apply key_step_other_type.
  - rewrite compute_stock_report_eq. by eexists.
  - intros qty_map m'. destruct (tally_spec qty_map m') as (q & Hq & Hb).
    exists q. split; [done|]. intros k. by rewrite Hb.
Qed.

Lemma other_type_is_noop_witness :
  (∀ qty_map, ∃ qty_map', tally qty_map transfer = inr qty_map'
     ∧ ∀ k, balance qty_map' k = balance qty_map k)
  ∧ compute_stock_report [bulk] (bulk_ledger ++ transfer :: bulk_ledger)
    = compute_stock_report [bulk] (bulk_ledger ++ bulk_ledger)
  ∧ (∃ rows, compute_stock_report [bulk]
               (bulk_ledger ++ transfer :: bulk_ledger) = inr rows)
  ∧ (∀ qty_map m', ∃ qty_map', tally qty_map m' = inr qty_map'
     ∧ ∀ k, balance qty_map' k
        = if posts_to k m' then
            if Py.eq_str (MovementDoc.type m') "in" then
              (balance qty_map k + Py.float_or_0 (MovementDoc.qty m'))%float
            else if Py.eq_str (MovementDoc.type m') "out" then
              (balance qty_map k - Py.float_or_0 (MovementDoc.qty m'))%float
            else balance qty_map k
          else balance qty_map k).
Proof.
  apply (other_type_is_noop [bulk] bulk_ledger transfer bulk_ledger);
    simpl; discriminate.
Defined.

(** C9: the stock report only reads the store and is a function of its
    items and stock movements: it leaves the store as it was, running it
    again returns the same result, and two stores with the same items and
    movements yield the same report. *)
Theorem stock_report_deterministic (st : db) :
  snd (stock_report st) = st
  ∧ stock_report (snd (stock_report st)) = stock_report st
  ∧ fst (stock_report st)
    = compute_stock_report (items st) (stockmovements st)
  ∧ ∀ st', items st' = items st → stockmovements st' = stockmovements st →
      fst (stock_report st') = fst (stock_report st).
Proof.
  split; [|split; [|split]].
  - by rewrite stock_report_run.
  - by rewrite !stock_report_run.
  - by rewrite stock_report_run.
  - intros st' Hi Hm. rewrite !stock_report_run. simpl. by rewrite Hi, Hm.
Qed.

(** C10: a movement whose [item_id] is missing or the empty string is
    skipped before its type is looked at: whatever its type and quantity,
    it leaves the quantity map as it is, and the report is the one computed
    without it. *)
Theorem falsy_item_id_is_skipped items ms1 m ms2 :
  MovementDoc.item_id m = None ∨ MovementDoc.item_id m = Some (IdStr "") →
  (∀ qty_map, tally qty_map m = inr qty_map)
  ∧ compute_stock_report items (ms1 ++ m :: ms2)
    = compute_stock_report items (ms1 ++ ms2).
Proof.
  intros Hfalsy. apply falsy_item_id in Hfalsy. split.
  - intros qty_map. unfold tally. by rewrite Hfalsy.
  - apply report_skip. intros it v _. unfold key_step.
    by rewrite posts_to_falsy.
Qed.

Lemma falsy_item_id_is_skipped_witness :
  (∀ qty_map, tally qty_map unkeyed = inr qty_map)
  ∧ compute_stock_report [bulk] (bulk_ledger ++ unkeyed :: bulk_ledger)
    = compute_stock_report [bulk] (bulk_ledger ++ bulk_ledger).
Proof.
  apply (falsy_item_id_is_skipped [bulk] bulk_ledger unkeyed bulk_ledger).
  right. reflexivity.
Defined.

(** ** Claims about the ledger engine and the item catalogue *)

(** C2: recording a purchase with N lines appends exactly N stock movement
    documents, one per line in line order, each with the line's [item_id]
    and [qty], type "in", reason "purchase", [ref_type] "purchase" and
    [ref_id] the id returned for the purchase; recording a sale does the
    same with type "out", reason "sale" and [ref_type] "sale". *)
Theorem one_movement_per_line utcnow st purchase sale :
  Purchase.validate purchase = true → Sale.validate sale = true →
  (∃ st' new,
     create_purchase utcnow purchase st
     = (inr {| IdModel.id := Bson.str (next_oid st) |}, st')
     ∧ stockmovements st' = stockmovements st ++ new
     ∧ length new = length (Purchase.items purchase)
     ∧ Forall2 (fun line m =>
                  recorded (PurchaseItem.item_id line) (PurchaseItem.qty line)
                    "in" "purchase" "purchase" (Bson.str (next_oid st)) m)
         (Purchase.items purchase) new)
  ∧ (∃ st' new,
       create_sale utcnow sale st
       = (inr {| IdModel.id := Bson.str (next_oid st) |}, st')
       ∧ stockmovements st' = stockmovements st ++ new
       ∧ length new = length (Sale.items sale)
       ∧ Forall2 (fun line m =>
                    recorded (SaleItem.item_id line) (SaleItem.qty line)
                      "out" "sale" "sale" (Bson.str (next_oid st)) m)
           (Sale.items sale) new).
Proof.
  intros Hp Hs. split.
  - destruct (create_purchase_run utcnow purchase st
                (purchase_lines_valid _ Hp))
      as (st' & new & Hrun & _ & _ & _ & Hm & Hall).
    exists st', new. repeat split; try done.
    symmetry. by eapply Forall2_length.
  - destruct (create_sale_run utcnow sale st (sale_lines_valid _ Hs))
      as (st' & new & Hrun & _ & _ & _ & Hm & Hall).
    exists st', new. repeat split; try done.
    symmetry. by eapply Forall2_length.
Qed.

Lemma one_movement_per_line_witness :
  (∃ st' new,
     create_purchase sample_clock two_line_purchase empty_store
     = (inr {| IdModel.id := Bson.str (next_oid empty_store) |}, st')
     ∧ stockmovements st' = stockmovements empty_store ++ new
     ∧ length new = length (Purchase.items two_line_purchase)
     ∧ Forall2 (fun line m =>
                  recorded (PurchaseItem.item_id line) (PurchaseItem.qty line)
                    "in" "purchase" "purchase"
                    (Bson.str (next_oid empty_store)) m)
         (Purchase.items two_line_purchase) new)
  ∧ (∃ st' new,
       create_sale sample_clock one_line_sale empty_store
       = (inr {| IdModel.id := Bson.str (next_oid empty_store) |}, st')
       ∧ stockmovements st' = stockmovements empty_store ++ new
       ∧ length new = length (Sale.items one_line_sale)
       ∧ Forall2 (fun line m =>
                    recorded (SaleItem.item_id line) (SaleItem.qty line)
                      "out" "sale" "sale"
                      (Bson.str (next_oid empty_store)) m)
           (Sale.items one_line_sale) new).
Proof.
  apply (one_movement_per_line sample_clock empty_store
           two_line_purchase one_line_sale); vm_compute; reflexivity.
Defined.

(** C3: of two creations with the same SKU submitted one after the other,
    the second always raises HTTP 400 "SKU already exists" (the DuplicateKey
    error) and stores nothing; and when the store holds no item with that
    SKU, the first one succeeds, stores the item and returns the generated
    id. *)
Theorem sku_uniqueness st first second :
  Item.sku first = Item.sku second →
  create_item second (snd (create_item first st))
  = (inl (Py.HTTPException 400 "SKU already exists"),
     snd (create_item first st))
  ∧ ((∀ d, In d (items st) → ItemDoc.sku d ≠ Some (Item.sku first)) →
     create_item first st
     = (inr {| IdModel.id := Bson.str (next_oid st) |},
        snd (create_item first st))
     ∧ items (snd (create_item first st))
       = items st ++ [ItemDoc.of_model (next_oid st) first]).
Proof.
  intros Hsku.
  assert (Hfresh : (∀ d, In d (items st) →
                      ItemDoc.sku d ≠ Some (Item.sku first)) →
                   create_item first st
                   = (inr {| IdModel.id := Bson.str (next_oid st) |},
                      snd (create_document item first st))).
  { intros Hnone. unfold create_item.
    run with (find_one_sku_none _ _ Hnone). reflexivity. }
  assert (Hdup : ∀ payload s d, In d (items s) →
                   ItemDoc.sku d = Some (Item.sku payload) →
                   create_item payload s
                   = (inl (Py.HTTPException 400 "SKU already exists"), s)).
  { intros payload s d Hin Hd.
    destruct (find_one_sku_some _ s d Hin Hd) as (d' & Hfind).
    unfold create_item. run with Hfind. reflexivity. }
  split.
  - destruct (List.find (fun d => Py.eq_str (ItemDoc.sku d) (Item.sku first))
                (items st)) as [d|] eqn:Hfind.
    + (* the SKU is taken already: the first call raises, too *)
      apply find_some in Hfind as [Hin Heq].
      assert (Hd : ItemDoc.sku d = Some (Item.sku first)).
      { destruct (ItemDoc.sku d) as [t|]; [|done]. simpl in Heq.
        apply String.eqb_eq in Heq. congruence. }
      rewrite (Hdup first st d Hin Hd). simpl.
      apply (Hdup second st d Hin). by rewrite <- Hsku.
    + rewrite Hfresh.
      * simpl. eapply Hdup; [apply in_or_app; right; by left|].
        simpl. by rewrite Hsku.
      * intros d Hin Hd. eapply find_none in Hfind; [|exact Hin].
        simpl in Hfind. rewrite Hd in Hfind. simpl in Hfind.
        by rewrite String.eqb_refl in Hfind.
  - intros Hnone. rewrite (Hfresh Hnone). done.
Qed.

Lemma sku_uniqueness_witness :
  create_item (sample_model "Claw hammer" "H-1" 0)
    (snd (create_item (sample_model "Hammer" "H-1" 10) empty_store))
  = (inl (Py.HTTPException 400 "SKU already exists"),
     snd (create_item (sample_model "Hammer" "H-1" 10) empty_store))
  ∧ create_item (sample_model "Hammer" "H-1" 10) empty_store
    = (inr {| IdModel.id := Bson.str (next_oid empty_store) |},
       snd (create_item (sample_model "Hammer" "H-1" 10) empty_store))
  ∧ items (snd (create_item (sample_model "Hammer" "H-1" 10) empty_store))
    = items empty_store
      ++ [ItemDoc.of_model (next_oid empty_store)
            (sample_model "Hammer" "H-1" 10)].
Proof.
  destruct (sku_uniqueness empty_store (sample_model "Hammer" "H-1" 10)
              (sample_model "Claw hammer" "H-1" 0) eq_refl) as [Hsecond Hfirst].
  split; [exact Hsecond|]. apply Hfirst. intros d [].
Defined.

(** C5, as the code has it: [to_oid] turns an identifier string that the
    bson library rejects into HTTP 400 "Invalid id", but no create handler
    calls it.  [create_purchase] and [create_sale] accept every payload that
    passes the schema, whatever identifier strings it carries, and store the
    [vendor_id], the [customer_id] and every line's [item_id] as given. *)
Theorem identifiers_are_stored_unchecked
    (ObjectId : string → option Bson.ObjectId) utcnow st id_str purchase sale :
  ObjectId id_str = None →
  Purchase.vendor_id purchase = id_str → Purchase.validate purchase = true →
  Sale.customer_id sale = Some id_str → Sale.validate sale = true →
  to_oid ObjectId id_str = inl (Py.HTTPException 400 "Invalid id")
  ∧ (∃ st' new,
       create_purchase utcnow purchase st
       = (inr {| IdModel.id := Bson.str (next_oid st) |}, st')
       ∧ map (fun d => Purchase.vendor_id (PurchaseDoc.body d)) (purchases st')
         = map (fun d => Purchase.vendor_id (PurchaseDoc.body d)) (purchases st)
           ++ [id_str]
       ∧ stockmovements st' = stockmovements st ++ new
       ∧ map MovementDoc.item_id new
         = map (fun line => Some (IdStr (PurchaseItem.item_id line)))
             (Purchase.items purchase))
  ∧ (∃ st' new,
       create_sale utcnow sale st
       = (inr {| IdModel.id := Bson.str (next_oid st) |}, st')
       ∧ map (fun d => Sale.customer_id (SaleDoc.body d)) (sales st')
         = map (fun d => Sale.customer_id (SaleDoc.body d)) (sales st)
           ++ [Some id_str]
       ∧ stockmovements st' = stockmovements st ++ new
       ∧ map MovementDoc.item_id new
         = map (fun line => Some (IdStr (SaleItem.item_id line)))
             (Sale.items sale)).
Proof.
  intros Hbad Hvendor Hp Hcustomer Hs. split; [|split].
  - unfold to_oid. by rewrite Hbad.
  - destruct (create_purchase_run utcnow purchase st
                (purchase_lines_valid _ Hp))
      as (st' & new & Hrun & _ & Hdocs & _ & Hm & Hall).
    exists st', new. repeat split; try done.
    + rewrite Hdocs, map_app. simpl. by rewrite Hvendor.
    + clear -Hall. induction Hall as [|line m lines new Hrec _ IH]; [done|].
      simpl. rewrite IH. by destruct Hrec as (-> & _).
  - destruct (create_sale_run utcnow sale st (sale_lines_valid _ Hs))
      as (st' & new & Hrun & _ & _ & Hdocs & Hm & Hall).
    exists st', new. repeat split; try done.
    + rewrite Hdocs, map_app. simpl. by rewrite Hcustomer.
    + clear -Hall. induction Hall as [|line m lines new Hrec _ IH]; [done|].
      simpl. rewrite IH. by destruct Hrec as (-> & _).
Qed.

Lemma identifiers_are_stored_unchecked_witness :
  to_oid Bson.of_str "not-an-id" = inl (Py.HTTPException 400 "Invalid id")
  ∧ (∃ st' new,
       create_purchase sample_clock malformed_purchase empty_store
       = (inr {| IdModel.id := Bson.str (next_oid empty_store) |}, st')
       ∧ map (fun d => Purchase.vendor_id (PurchaseDoc.body d)) (purchases st')
         = map (fun d => Purchase.vendor_id (PurchaseDoc.body d))
             (purchases empty_store)
           ++ ["not-an-id"]
       ∧ stockmovements st' = stockmovements empty_store ++ new
       ∧ map MovementDoc.item_id new
         = map (fun line => Some (IdStr (PurchaseItem.item_id line)))
             (Purchase.items malformed_purchase))
  ∧ (∃ st' new,
       create_sale sample_clock malformed_sale empty_store
       = (inr {| IdModel.id := Bson.str (next_oid empty_store) |}, st')
       ∧ map (fun d => Sale.customer_id (SaleDoc.body d)) (sales st')
         = map (fun d => Sale.customer_id (SaleDoc.body d))
             (sales empty_store)
           ++ [Some "not-an-id"]
       ∧ stockmovements st' = stockmovements empty_store ++ new
       ∧ map MovementDoc.item_id new
         = map (fun line => Some (IdStr (SaleItem.item_id line)))
             (Sale.items malformed_sale)).
Proof.
  apply (identifiers_are_stored_unchecked Bson.of_str sample_clock
           empty_store "not-an-id" malformed_purchase malformed_sale);
    vm_compute; reflexivity.
Defined.

(** C5, as the spec states it, fails: a purchase whose [vendor_id] and line
    [item_id] are malformed (the bson format rejects them, and [to_oid]
    would answer HTTP 400) is accepted, stored and answered with an id. *)
Lemma malformed_identifier_counterexample :
  Bson.of_str (Purchase.vendor_id malformed_purchase) = None
  ∧ to_oid Bson.of_str (Purchase.vendor_id malformed_purchase)
    = inl (Py.HTTPException 400 "Invalid id")
  ∧ Forall (fun line => Bson.of_str (PurchaseItem.item_id line) = None)
      (Purchase.items malformed_purchase)
  ∧ Purchase.validate malformed_purchase = true
  ∧ ∃ st',
      create_purchase sample_clock malformed_purchase empty_store
      = (inr {| IdModel.id := "000000000000000000000000" |}, st')
      ∧ map PurchaseDoc.body (purchases st') = [malformed_purchase]
      ∧ map MovementDoc.item_id (stockmovements st')
        = [Some (IdStr "no-such-item")].
Proof.
  split; [reflexivity|]. split; [reflexivity|].
  split; [repeat constructor|]. split; [reflexivity|].
  eexists. split; [vm_compute; reflexivity|]. split; reflexivity.
Qed.

(** C6: recording a purchase without lines stores the purchase and returns
    its id, stores no stock movement and leaves the items alone, so the
    stock report computed afterwards is the one computed before. *)
Theorem zero_line_purchase utcnow st payload :
  Purchase.items payload = [] →
  ∃ st',
    create_purchase utcnow payload st
    = (inr {| IdModel.id := Bson.str (next_oid st) |}, st')
    ∧ purchases st'
      = purchases st ++ [PurchaseDoc.Build_t (next_oid st) payload]
    ∧ stockmovements st' = stockmovements st
    ∧ items st' = items st
    ∧ fst (stock_report st') = fst (stock_report st).
Proof.
  intros Hnone.
  destruct (create_purchase_run utcnow payload st)
    as (st' & new & Hrun & Hi & Hdocs & _ & Hm & Hall).
  { rewrite Hnone. constructor. }
  rewrite Hnone in Hall. apply Forall2_nil_inv_l in Hall. subst new.
  rewrite app_nil_r in Hm.
  exists st'. repeat split; try done.
  by rewrite !stock_report_run, Hi, Hm.
Qed.

Lemma zero_line_purchase_witness :
  ∃ st',
    create_purchase sample_clock (sample_purchase "vendor-1" []) empty_store
    = (inr {| IdModel.id := Bson.str (next_oid empty_store) |}, st')
    ∧ purchases st'
      = purchases empty_store
        ++ [PurchaseDoc.Build_t (next_oid empty_store)
              (sample_purchase "vendor-1" [])]
    ∧ stockmovements st' = stockmovements empty_store
    ∧ items st' = items empty_store
    ∧ fst (stock_report st') = fst (stock_report empty_store).
Proof.
  apply (zero_line_purchase sample_clock empty_store
           (sample_purchase "vendor-1" [])).
  reflexivity.
Defined.

(** C7: on-hand may go negative.  For an item with opening stock 0 and no
    "in" (and no "out") movement in the ledger yet, a sale with a line of
    100 units of the item (and any lines for other items) is accepted: no
    stock level is checked, the sale's id is returned, and the stock report
    computed afterwards holds [on_hand = -100] for the item. *)
Theorem sale_may_go_negative utcnow st it payload before line after :
  List.NoDup (map item_key_of (items st)) → In it (items st) →
  ItemDoc.opening_stock it = Some 0%float →
  (∀ m, In m (stockmovements st) → movement_key m = Some (item_key_of it) →
     MovementDoc.type m ≠ Some "in" ∧ MovementDoc.type m ≠ Some "out") →
  Sale.validate payload = true →
  Sale.items payload = before ++ line :: after →
  (∀ l, In l (before ++ after) → SaleItem.item_id l ≠ item_key_of it) →
  SaleItem.item_id line = item_key_of it →
  SaleItem.qty line = 100%float →
  ∃ st' rows,
    create_sale utcnow payload st
    = (inr {| IdModel.id := Bson.str (next_oid st) |}, st')
    ∧ stock_report st' = (inr rows, st')
    ∧ (∃ r, In r rows ∧ StockRow.item_id r = item_key_of it)
    ∧ ∀ r, In r rows → StockRow.item_id r = item_key_of it →
        StockRow.on_hand r = (-100)%float.
Proof.
  intros Hnd Hit Hopen Hfresh Hvalid Hlines Hothers Hline Hqty.
  destruct (create_sale_run utcnow payload st (sale_lines_valid _ Hvalid))
    as (st' & new & Hrun & Hi & _ & _ & Hm & Hall).
  exists st', (map (reconciled (items st') (stockmovements st')) (items st')).
  split; [done|]. split.
  { by rewrite stock_report_run, compute_stock_report_eq. }
  rewrite Hi, Hm. split.
  { exists (reconciled (items st) (stockmovements st ++ new) it).
    split; [by apply in_map|done]. }
  intros r Hr Hkey. apply in_map_iff in Hr as (it' & <- & Hit').
  simpl in *. rewrite Hkey. rewrite (opening_map_balance _ _ Hnd Hit), Hopen.
  rewrite settle_app.
  rewrite (settle_quiet _ (stockmovements st)).
  2:{ intros m v Hin. unfold key_step.
      destruct (posts_to (item_key_of it) m) eqn:Hp; [|done].
      apply posts_to_true in Hp as [Hp _].
      destruct (Hfresh m Hin Hp) as [Hnin Hnout]. unfold post.
      by rewrite (eq_str_false _ _ Hnin), (eq_str_false _ _ Hnout). }
  rewrite Hlines in Hall.
  apply Forall2_app_inv_l in Hall as (n1 & n23 & Hn1 & Hn23 & ->).
  apply Forall2_cons_inv_l in Hn23 as (m & n2 & Hrec & Hn2 & ->).
  assert (Hquiet : ∀ ls ns,
            Forall2 (fun line m =>
                       recorded (SaleItem.item_id line) (SaleItem.qty line)
                         "out" "sale" "sale" (Bson.str (next_oid st)) m)
              ls ns →
            (∀ l, In l ls → SaleItem.item_id l ≠ item_key_of it) →
            ∀ m, In m ns → posts_to (item_key_of it) m = false).
  { intros ls ns Hls. induction Hls as [|l0 m0 ls ns Hr0 _ IH];
      intros Hne m0' Hin; [done|].
    destruct Hin as [<- | Hin].
    - apply posts_to_other. rewrite (recorded_key _ _ _ _ _ _ _ Hr0).
      intros [= Heq]. eapply Hne; [by left|done].
    - apply IH; [|done]. intros l Hl. apply Hne. by right. }
  rewrite settle_app. rewrite (settle_none _ n1) by
    (apply (Hquiet before); [done|];
     intros l Hl; apply Hothers, in_or_app; by left).
  rewrite settle_cons.
  rewrite (settle_none _ n2) by
    (apply (Hquiet after); [done|];
     intros l Hl; apply Hothers, in_or_app; by right).
  unfold key_step.
  assert (Hposts : posts_to (item_key_of it) m = true).
  { apply posts_to_true. split.
    - rewrite (recorded_key _ _ _ _ _ _ _ Hrec). by rewrite Hline.
    - apply str_nonempty. }
  rewrite Hposts. unfold post.
  destruct Hrec as (_ & -> & -> & _). simpl. rewrite Hqty.
  vm_compute. reflexivity.
Qed.

Lemma sale_may_go_negative_witness :
  ∃ st' rows,
    create_sale sample_clock
      (sample_sale None [sale_line (Bson.str 0%N) 100]) fresh_store
    = (inr {| IdModel.id := Bson.str (next_oid fresh_store) |}, st')
    ∧ stock_report st' = (inr rows, st')
    ∧ (∃ r, In r rows
         ∧ StockRow.item_id r
           = item_key_of (sample_item 0%N "Hinge" "HG-1" 0))
    ∧ ∀ r, In r rows →
        StockRow.item_id r = item_key_of (sample_item 0%N "Hinge" "HG-1" 0) →
        StockRow.on_hand r = (-100)%float.
Proof.
  apply (sale_may_go_negative sample_clock fresh_store
           (sample_item 0%N "Hinge" "HG-1" 0)
           (sample_sale None [sale_line (Bson.str 0%N) 100])
           [] (sale_line (Bson.str 0%N) 100) []).
  - apply List.NoDup_cons; [simpl; tauto | apply List.NoDup_nil].
  - simpl. tauto.
  - reflexivity.
  - intros m [<- | [<- | []]] Hkey.
    + split; discriminate.
    + vm_compute in Hkey. discriminate.
  - vm_compute. reflexivity.
  - reflexivity.
  - intros l [].
  - reflexivity.
  - reflexivity.
Defined.

(** * Further properties of the handlers *)

(** ** The stock report and the order of the ledger *)

Lemma movements_of_app k ms1 ms2 :
  movements_of k (ms1 ++ ms2) = movements_of k ms1 ++ movements_of k ms2.
Proof. apply List.filter_app. Qed.

Lemma movements_of_none k ms :
  (∀ m, In m ms → posts_to k m = false) → movements_of k ms = [].
Proof.
  induction ms as [|m ms IH]; intros Hms; [done|].
  unfold movements_of in *. simpl. rewrite Hms by (by left).
  apply IH. intros m' Hm'. apply Hms. by right.
Qed.

(** X1: the stock report depends on the ledger only through each item's own
    movements, in their order: two ledgers in which every item has the same
    movements in the same order give the same report, however the movements
    of different items (and those of no item) are interleaved. *)
Theorem report_depends_on_own_movements items ms ms' :
  (∀ it, In it items →
     movements_of (item_key_of it) ms = movements_of (item_key_of it) ms') →
  compute_stock_report items ms = compute_stock_report items ms'.
Proof.
  intros Hsame. rewrite !compute_stock_report_eq. f_equal.
  apply map_ext_in. intros it Hit. unfold reconciled. do 2 f_equal.
  rewrite !settle_filter. fold (movements_of (item_key_of it) ms).
  fold (movements_of (item_key_of it) ms'). by rewrite (Hsame it Hit).
Qed.

Lemma report_depends_on_own_movements_witness :
  compute_stock_report [bulk; screws] (bulk_ledger ++ [unkeyed; screws_receipt])
  = compute_stock_report [bulk; screws] (screws_receipt :: bulk_ledger).
Proof.
  apply (report_depends_on_own_movements [bulk; screws]
           (bulk_ledger ++ [unkeyed; screws_receipt])
           (screws_receipt :: bulk_ledger)).
  intros it [<- | [<- | []]]; vm_compute; reflexivity.
Defined.

(** ** A new item in the report *)

Lemma opening_map_snoc items it :
  opening_map (items ++ [it])
  = <[item_key_of it := Py.float_or_0 (ItemDoc.opening_stock it)]>
      (opening_map items).
Proof. unfold opening_map. by rewrite fold_left_app. Qed.

Lemma reconciled_snoc_other items ms it it' :
  item_key_of it' ≠ item_key_of it →
  reconciled (items ++ [it]) ms it' = reconciled items ms it'.
Proof.
  intros Hne. unfold reconciled. do 3 f_equal.
  rewrite opening_map_snoc. by apply balance_insert_ne.
Qed.

(** X2: creating an item with a new SKU (in a store where the id it
    receives is not in use) appends one record to the stock report and
    leaves the records of the other items as they were.  The new record
    starts from the item's opening stock and counts the movements that
    already name the new id. *)
Theorem create_item_adds_row st payload :
  (∀ d, In d (items st) → ItemDoc.sku d ≠ Some (Item.sku payload)) →
  (∀ d, In d (items st) → item_key_of d ≠ Bson.str (next_oid st)) →
  ∃ rows,
    fst (stock_report st) = inr rows
    ∧ fst (stock_report (snd (create_item payload st)))
      = inr (rows ++
             [ {| StockRow.item_id := Bson.str (next_oid st);
                  StockRow.name := Some (Item.name payload);
                  StockRow.sku := Some (Item.sku payload);
                  StockRow.on_hand :=
                    Py.round2
                      (ledger_balance (Item.opening_stock payload)
                         (movements_of (Bson.str (next_oid st))
                            (stockmovements st)));
                  StockRow.unit := Item.unit payload |} ]).
Proof.
  intros Hsku Hid. eexists. split.
  { rewrite stock_report_run. apply compute_stock_report_eq. }
  assert (Hrun : create_item payload st
                 = (inr {| IdModel.id := Bson.str (next_oid st) |},
                    snd (create_document item payload st))).
  { unfold create_item. run with (find_one_sku_none _ _ Hsku). reflexivity. }
  rewrite Hrun, stock_report_run, compute_stock_report_eq. simpl.
  rewrite map_app. simpl. do 2 f_equal.
  - apply map_ext_in. intros it Hit. apply reconciled_snoc_other.
    by apply Hid.
  - unfold reconciled. f_equal. f_equal. f_equal.
    rewrite opening_map_snoc, balance_insert_eq. simpl.
    apply settle_filter.
Qed.

Lemma create_item_adds_row_witness :
  ∃ rows,
    fst (stock_report fresh_store) = inr rows
    ∧ fst (stock_report
             (snd (create_item (sample_model "Bolts" "B-1" 6) fresh_store)))
      = inr (rows ++
             [ {| StockRow.item_id := Bson.str (next_oid fresh_store);
                  StockRow.name := Some "Bolts";
                  StockRow.sku := Some "B-1";
                  StockRow.on_hand :=
                    Py.round2
                      (ledger_balance 6
                         (movements_of (Bson.str (next_oid fresh_store))
                            (stockmovements fresh_store)));
                  StockRow.unit := "pcs" |} ]).
Proof.
  apply (create_item_adds_row fresh_store (sample_model "Bolts" "B-1" 6)).
  - intros d [<- | []]. discriminate.
  - intros d [<- | []]. vm_compute. discriminate.
Defined.

(** ** Purchases and sales in the report *)

Lemma report_app_quiet items ms new :
  (∀ m it, In m new → In it items → posts_to (item_key_of it) m = false) →
  compute_stock_report items (ms ++ new) = compute_stock_report items ms.
Proof.
  intros Hquiet. rewrite !compute_stock_report_eq. f_equal.
  apply map_ext_in. intros it Hit. unfold reconciled. do 2 f_equal.
  rewrite settle_app. apply settle_none. intros m Hm. by apply Hquiet.
Qed.

Lemma posts_to_recorded k item_id qty type reason ref_type ref_id m :
  k ≠ "" →
  recorded item_id qty type reason ref_type ref_id m →
  posts_to k m = String.eqb item_id k.
Proof.
  intros Hk Hrec. unfold posts_to.
  rewrite (recorded_key _ _ _ _ _ _ _ Hrec).
  apply String.eqb_neq in Hk. rewrite Hk, andb_true_r.
  destruct (String.eqb_spec item_id k) as [-> | Hne].
  - by apply bool_decide_eq_true_2.
  - apply bool_decide_eq_false_2. congruence.
Qed.

Lemma settle_received k ref_id lines new : ∀ b,
  k ≠ "" →
  Forall2 (fun line m =>
             recorded (PurchaseItem.item_id line) (PurchaseItem.qty line)
               "in" "purchase" "purchase" ref_id m) lines new →
  settle k new b = received k lines b.
Proof.
  intros b Hk Hall. revert b.
  induction Hall as [|line m lines new Hrec _ IH]; intros b; [done|].
  rewrite settle_cons, IH. unfold received. simpl. f_equal.
  unfold key_step. rewrite (posts_to_recorded _ _ _ _ _ _ _ _ Hk Hrec).
  destruct (String.eqb _ k); [|done].
  unfold post. by destruct Hrec as (_ & -> & -> & _).
Qed.

Lemma settle_issued k ref_id lines new : ∀ b,
  k ≠ "" →
  Forall2 (fun line m =>
             recorded (SaleItem.item_id line) (SaleItem.qty line)
               "out" "sale" "sale" ref_id m) lines new →
  settle k new b = issued k lines b.
Proof.
  intros b Hk Hall. revert b.
  induction Hall as [|line m lines new Hrec _ IH]; intros b; [done|].
  rewrite settle_cons, IH. unfold issued. simpl. f_equal.
  unfold key_step. rewrite (posts_to_recorded _ _ _ _ _ _ _ _ Hk Hrec).
  destruct (String.eqb _ k); [|done].
  unfold post. by destruct Hrec as (_ & -> & -> & _).
Qed.

(** The report's records for the key of [it], when the ledger grew by
    [new]. *)
Lemma rows_after items ms new it b :
  List.NoDup (map item_key_of items) → In it items →
  settle (item_key_of it) new
    (ledger_balance (Py.float_or_0 (ItemDoc.opening_stock it))
       (movements_of (item_key_of it) ms)) = b →
  (∃ r, In r (map (reconciled items (ms ++ new)) items)
        ∧ StockRow.item_id r = item_key_of it)
  ∧ ∀ r, In r (map (reconciled items (ms ++ new)) items) →
      StockRow.item_id r = item_key_of it →
      StockRow.on_hand r = Py.round2 b.
Proof.
  intros Hnd Hit Hb. split.
  - exists (reconciled items (ms ++ new) it). split; [by apply in_map|done].
  - intros r Hr Hkey. apply in_map_iff in Hr as (it' & <- & Hit').
    subst b. simpl in *.
    rewrite Hkey, settle_app, (opening_map_balance _ _ Hnd Hit).
    by rewrite (settle_filter _ ms).
Qed.

(** X3: a purchase adds the quantities of its lines to the balances of the
    items they name, line after line.  For an item of the store (whose id
    no other item shares) the report after the purchase holds the balance
    the ledger gave before, plus the quantity of each line for the item in
    line order, rounded to two decimals; the balance of an item no line
    names is what it was. *)
Theorem purchase_is_received utcnow st payload it :
  List.NoDup (map item_key_of (items st)) → In it (items st) →
  Purchase.validate payload = true →
  ∃ st' rows,
    create_purchase utcnow payload st
    = (inr {| IdModel.id := Bson.str (next_oid st) |}, st')
    ∧ stock_report st' = (inr rows, st')
    ∧ (∃ r, In r rows ∧ StockRow.item_id r = item_key_of it)
    ∧ ∀ r, In r rows → StockRow.item_id r = item_key_of it →
        StockRow.on_hand r
        = Py.round2
            (received (item_key_of it) (Purchase.items payload)
               (ledger_balance (Py.float_or_0 (ItemDoc.opening_stock it))
                  (movements_of (item_key_of it) (stockmovements st)))).
Proof.
  intros Hnd Hit Hvalid.
  destruct (create_purchase_run utcnow payload st
              (purchase_lines_valid _ Hvalid))
    as (st' & new & Hrun & Hi & _ & _ & Hm & Hall).
  exists st', (map (reconciled (items st') (stockmovements st')) (items st')).
  split; [done|]. split.
  { by rewrite stock_report_run, compute_stock_report_eq. }
  rewrite Hi, Hm. apply rows_after; [done..|].
  eapply settle_received; [apply str_nonempty|exact Hall].
Qed.

Lemma purchase_is_received_witness :
  ∃ st' rows,
    create_purchase sample_clock two_line_purchase fresh_store
    = (inr {| IdModel.id := Bson.str (next_oid fresh_store) |}, st')
    ∧ stock_report st' = (inr rows, st')
    ∧ (∃ r, In r rows
         ∧ StockRow.item_id r
           = item_key_of (sample_item 0%N "Hinge" "HG-1" 0))
    ∧ ∀ r, In r rows →
        StockRow.item_id r = item_key_of (sample_item 0%N "Hinge" "HG-1" 0) →
        StockRow.on_hand r
        = Py.round2
            (received (item_key_of (sample_item 0%N "Hinge" "HG-1" 0))
               (Purchase.items two_line_purchase)
               (ledger_balance
                  (Py.float_or_0
                     (ItemDoc.opening_stock
                        (sample_item 0%N "Hinge" "HG-1" 0)))
                  (movements_of
                     (item_key_of (sample_item 0%N "Hinge" "HG-1" 0))
                     (stockmovements fresh_store)))).
Proof.
  apply (purchase_is_received sample_clock fresh_store two_line_purchase
           (sample_item 0%N "Hinge" "HG-1" 0)).
  - apply List.NoDup_cons; [simpl; tauto | apply List.NoDup_nil].
  - simpl. tauto.
  - vm_compute. reflexivity.
Defined.

(** X4: a sale subtracts the quantities of its lines from the balances of
    the items they name, line after line, and checks no stock level: for an
    item of the store (whose id no other item shares) the report after the
    sale holds the balance the ledger gave before, minus the quantity of
    each line for the item in line order, rounded to two decimals. *)
Theorem sale_is_issued utcnow st payload it :
  List.NoDup (map item_key_of (items st)) → In it (items st) →
  Sale.validate payload = true →
  ∃ st' rows,
    create_sale utcnow payload st
    = (inr {| IdModel.id := Bson.str (next_oid st) |}, st')
    ∧ stock_report st' = (inr rows, st')
    ∧ (∃ r, In r rows ∧ StockRow.item_id r = item_key_of it)
    ∧ ∀ r, In r rows → StockRow.item_id r = item_key_of it →
        StockRow.on_hand r
        = Py.round2
            (issued (item_key_of it) (Sale.items payload)
               (ledger_balance (Py.float_or_0 (ItemDoc.opening_stock it))
                  (movements_of (item_key_of it) (stockmovements st)))).
Proof.
  intros Hnd Hit Hvalid.
  destruct (create_sale_run utcnow payload st (sale_lines_valid _ Hvalid))
    as (st' & new & Hrun & Hi & _ & _ & Hm & Hall).
  exists st', (map (reconciled (items st') (stockmovements st')) (items st')).
  split; [done|]. split.
  { by rewrite stock_report_run, compute_stock_report_eq. }
  rewrite Hi, Hm. apply rows_after; [done..|].
  eapply settle_issued; [apply str_nonempty|exact Hall].
Qed.

Lemma sale_is_issued_witness :
  ∃ st' rows,
    create_sale sample_clock one_line_sale fresh_store
    = (inr {| IdModel.id := Bson.str (next_oid fresh_store) |}, st')
    ∧ stock_report st' = (inr rows, st')
    ∧ (∃ r, In r rows
         ∧ StockRow.item_id r
           = item_key_of (sample_item 0%N "Hinge" "HG-1" 0))
    ∧ ∀ r, In r rows →
        StockRow.item_id r = item_key_of (sample_item 0%N "Hinge" "HG-1" 0) →
        StockRow.on_hand r
        = Py.round2
            (issued (item_key_of (sample_item 0%N "Hinge" "HG-1" 0))
               (Sale.items one_line_sale)
               (ledger_balance
                  (Py.float_or_0
                     (ItemDoc.opening_stock
                        (sample_item 0%N "Hinge" "HG-1" 0)))
                  (movements_of
                     (item_key_of (sample_item 0%N "Hinge" "HG-1" 0))
                     (stockmovements fresh_store)))).
Proof.
  apply (sale_is_issued sample_clock fresh_store one_line_sale
           (sample_item 0%N "Hinge" "HG-1" 0)).
  - apply List.NoDup_cons; [simpl; tauto | apply List.NoDup_nil].
  - simpl. tauto.
  - vm_compute. reflexivity.
Defined.

Lemma quiet_lines {A} (item_id : A → string) (R : A → MovementDoc.t → Prop)
    (items : list ItemDoc.t) lines new :
  (∀ line m, R line m → movement_key m = Some (item_id line)) →
  Forall2 R lines new →
  (∀ line it, In line lines → In it items → item_id line ≠ item_key_of it) →
  ∀ m it, In m new → In it items → posts_to (item_key_of it) m = false.
Proof.
  intros Hkey Hall. induction Hall as [|line m0 lines new Hrec _ IH];
    intros Hne m it Hm Hit; [done|].
  destruct Hm as [<- | Hm].
  - apply posts_to_other. rewrite (Hkey _ _ Hrec). intros [= Heq].
    eapply Hne; [by left|exact Hit|done].
  - apply IH; [|done..]. intros l i Hl. apply Hne. by right.
Qed.

(** X5: lines that name no item of the store move no stock.  A purchase or
    a sale whose lines all carry an [item_id] that is the id of no stored
    item (a mistyped id, the empty string) is accepted and recorded like any
    other, and the stock report afterwards is the report before. *)
Theorem unknown_items_move_no_stock utcnow st purchase sale :
  Purchase.validate purchase = true → Sale.validate sale = true →
  (∀ line it, In line (Purchase.items purchase) → In it (items st) →
     PurchaseItem.item_id line ≠ item_key_of it) →
  (∀ line it, In line (Sale.items sale) → In it (items st) →
     SaleItem.item_id line ≠ item_key_of it) →
  (fst (create_purchase utcnow purchase st)
   = inr {| IdModel.id := Bson.str (next_oid st) |}
   ∧ length (stockmovements (snd (create_purchase utcnow purchase st)))
     = (length (stockmovements st) + length (Purchase.items purchase))%nat
   ∧ fst (stock_report (snd (create_purchase utcnow purchase st)))
     = fst (stock_report st))
  ∧ (fst (create_sale utcnow sale st)
     = inr {| IdModel.id := Bson.str (next_oid st) |}
     ∧ length (stockmovements (snd (create_sale utcnow sale st)))
       = (length (stockmovements st) + length (Sale.items sale))%nat
     ∧ fst (stock_report (snd (create_sale utcnow sale st)))
       = fst (stock_report st)).
Proof.
  intros Hp Hs Hpl Hsl. split.
  - destruct (create_purchase_run utcnow purchase st
                (purchase_lines_valid _ Hp))
      as (st' & new & Hrun & Hi & _ & _ & Hm & Hall).
    rewrite Hrun. cbn [fst snd]. split; [done|]. split.
    + rewrite Hm, length_app. f_equal. symmetry. by eapply Forall2_length.
    + rewrite !stock_report_run. cbn [fst snd]. rewrite Hi, Hm.
      apply report_app_quiet.
      eapply (quiet_lines PurchaseItem.item_id); [|exact Hall|exact Hpl].
      intros line m Hrec. exact (recorded_key _ _ _ _ _ _ _ Hrec).
  - destruct (create_sale_run utcnow sale st (sale_lines_valid _ Hs))
      as (st' & new & Hrun & Hi & _ & _ & Hm & Hall).
    rewrite Hrun. cbn [fst snd]. split; [done|]. split.
    + rewrite Hm, length_app. f_equal. symmetry. by eapply Forall2_length.
    + rewrite !stock_report_run. cbn [fst snd]. rewrite Hi, Hm.
      apply report_app_quiet.
      eapply (quiet_lines SaleItem.item_id); [|exact Hall|exact Hsl].
      intros line m Hrec. exact (recorded_key _ _ _ _ _ _ _ Hrec).
Qed.

Lemma unknown_items_move_no_stock_witness :
  (fst (create_purchase sample_clock malformed_purchase fresh_store)
   = inr {| IdModel.id := Bson.str (next_oid fresh_store) |}
   ∧ length (stockmovements
               (snd (create_purchase sample_clock malformed_purchase
                       fresh_store)))
     = (length (stockmovements fresh_store)
        + length (Purchase.items malformed_purchase))%nat
   ∧ fst (stock_report
            (snd (create_purchase sample_clock malformed_purchase
                    fresh_store)))
     = fst (stock_report fresh_store))
  ∧ (fst (create_sale sample_clock (sample_sale None [sale_line "" 2])
            fresh_store)
     = inr {| IdModel.id := Bson.str (next_oid fresh_store) |}
     ∧ length (stockmovements
                 (snd (create_sale sample_clock
                         (sample_sale None [sale_line "" 2]) fresh_store)))
       = (length (stockmovements fresh_store)
          + length (Sale.items (sample_sale None [sale_line "" 2])))%nat
     ∧ fst (stock_report
              (snd (create_sale sample_clock
                      (sample_sale None [sale_line "" 2]) fresh_store)))
       = fst (stock_report fresh_store)).
Proof.
  apply (unknown_items_move_no_stock sample_clock fresh_store
           malformed_purchase (sample_sale None [sale_line "" 2])).
  - vm_compute. reflexivity.
  - vm_compute. reflexivity.
  - intros line it [<- | []] [<- | []]. vm_compute. discriminate.
  - intros line it [<- | []] [<- | []]. vm_compute. discriminate.
Defined.

(** ** What every sequence of requests keeps *)

Lemma bind_cases {A B} (m : M A) (k : A → M B) st :
  (∃ e, m st = (inl e, snd (m st)) ∧ (m ≫= k) st = (inl e, snd (m st)))
  ∨ (∃ a, m st = (inr a, snd (m st)) ∧ (m ≫= k) st = k a (snd (m st))).
Proof.
  unfold mbind, M_bind. destruct (m st) as [[e|a] st']; simpl.
  - left. by exists e.
  - right. by exists a.
Qed.

Lemma ret_run {A} (a : A) st : (mret a : M A) st = (inr a, st).
Proof. reflexivity. Qed.

(** The loop over the lines writes to the stock movements only, whether
    it completes or raises on the way. *)
Lemma for_each_frame {A} (mk : nat → A → Py.result StockMovement.t)
    (lines : list A) : ∀ i st,
  let st' :=
    snd (for_each (fun j line =>
                     movement ← lift (mk j line);
                     create_document stockmovement movement ;; mret tt)
           i lines st) in
  items st' = items st ∧ purchases st' = purchases st
  ∧ sales st' = sales st.
Proof.
  induction lines as [|line lines IH]; intros i st; [done|].
  cbn [for_each].
  match goal with
  | |- context [(?m ≫= ?k) st] =>
      destruct (bind_cases m k st) as [(e & Hm & ->) | (a & Hm & ->)];
      assert (Hone : items (snd (m st)) = items st
                     ∧ purchases (snd (m st)) = purchases st
                     ∧ sales (snd (m st)) = sales st)
  end.
  1,3: unfold mbind, M_bind, lift; by destruct (mk i line).
  - done.
  - destruct Hone as (Hi & Hp & Hs).
    match goal with
    | |- context [for_each ?body (S i) lines ?s] =>
        destruct (IH (S i) s) as (Hi' & Hp' & Hs')
    end.
    cbn zeta. by rewrite Hi', Hp', Hs'.
Qed.

Lemma create_purchase_frame utcnow payload st :
  items (snd (create_purchase utcnow payload st)) = items st.
Proof.
  unfold create_purchase.
  erewrite bind_ok; [|reflexivity].
  match goal with
  | |- context [(?m ≫= ?k) ?s] =>
      destruct (bind_cases m k s) as [(e & Hm & ->) | (a & Hm & ->)];
      pose proof (for_each_frame
        (fun (j : nat) line =>
           StockMovement.make (PurchaseItem.item_id line) "in"
             (PurchaseItem.qty line) "purchase" (Some "purchase")
             (Some (Bson.str (next_oid st))) (Some (utcnow j)))
        (Purchase.items payload) 0 s) as (Hi & _)
  end; rewrite ?ret_run; cbn [snd] in *; by rewrite Hi.
Qed.

Lemma create_sale_frame utcnow payload st :
  items (snd (create_sale utcnow payload st)) = items st.
Proof.
  unfold create_sale.
  erewrite bind_ok; [|reflexivity].
  match goal with
  | |- context [(?m ≫= ?k) ?s] =>
      destruct (bind_cases m k s) as [(e & Hm & ->) | (a & Hm & ->)];
      pose proof (for_each_frame
        (fun (j : nat) line =>
           StockMovement.make (SaleItem.item_id line) "out"
             (SaleItem.qty line) "sale" (Some "sale")
             (Some (Bson.str (next_oid st))) (Some (utcnow j)))
        (Sale.items payload) 0 s) as (Hi & _)
  end; rewrite ?ret_run; cbn [snd] in *; by rewrite Hi.
Qed.

(** [create_item] either stores the item, when no stored item has its SKU,
    or leaves the store as it is. *)
Lemma create_item_cases payload st :
  (snd (create_item payload st) = st
   ∧ ∃ d, In d (items st) ∧ ItemDoc.sku d = Some (Item.sku payload))
  ∨ (snd (create_item payload st) = snd (create_document item payload st)
     ∧ ∀ d, In d (items st) → ItemDoc.sku d ≠ Some (Item.sku payload)).
Proof.
  destruct (List.find (fun d => Py.eq_str (ItemDoc.sku d) (Item.sku payload))
              (items st)) as [d|] eqn:Hfind.
  - left. apply find_some in Hfind as [Hin Heq].
    assert (Hd : ItemDoc.sku d = Some (Item.sku payload)).
    { destruct (ItemDoc.sku d) as [t|]; [|done]. simpl in Heq.
      apply String.eqb_eq in Heq. congruence. }
    split; [|by exists d].
    destruct (find_one_sku_some _ st d Hin Hd) as (d' & Hrun).
    unfold create_item. run with Hrun. reflexivity.
  - right.
    assert (Hnone : ∀ d, In d (items st) →
                      ItemDoc.sku d ≠ Some (Item.sku payload)).
    { intros d Hin Hd. eapply find_none in Hfind; [|exact Hin].
      simpl in Hfind. rewrite Hd in Hfind. simpl in Hfind.
      by rewrite String.eqb_refl in Hfind. }
    split; [|done].
    unfold create_item. run with (find_one_sku_none _ _ Hnone). reflexivity.
Qed.

Lemma serve_all_snoc rs r st :
  serve_all (rs ++ [r]) st = serve r (serve_all rs st).
Proof. unfold serve_all. by rewrite fold_left_app. Qed.

(** X6: SKUs stay unique.  Whatever requests are served one after the
    other, valid or not, accepted or rejected, a store whose items have
    pairwise different SKUs still has pairwise different SKUs afterwards:
    only [create_item] adds items, and only under a SKU no stored item
    has. *)
Theorem skus_stay_unique rs st :
  List.NoDup (map ItemDoc.sku (items st)) →
  List.NoDup (map ItemDoc.sku (items (serve_all rs st))).
Proof.
  intros Hst. induction rs as [|r rs IH] using rev_ind; [done|].
  rewrite serve_all_snoc. set (s := serve_all rs st) in *.
  destruct r as [payload | utcnow payload | utcnow payload | ]; simpl.
  - destruct (create_item_cases payload s) as [[-> _] | [-> Hnew]]; [done|].
    simpl. rewrite map_app. simpl. apply List.NoDup_app; [done| |].
    + apply List.NoDup_cons; [by intros []|apply List.NoDup_nil].
    + intros sku Hin [<- | []].
      apply in_map_iff in Hin as (d & Hd & Hin). by apply (Hnew d).
  - by rewrite create_purchase_frame.
  - by rewrite create_sale_frame.
  - done.
Qed.

Lemma skus_stay_unique_witness :
  List.NoDup (map ItemDoc.sku (items (serve_all morning empty_store))).
Proof.
  apply (skus_stay_unique morning empty_store). apply List.NoDup_nil.
Defined.

Lemma Forall2_In_r {A B} (R : A → B → Prop) l k y :
  Forall2 R l k → In y k → ∃ x, In x l ∧ R x y.
Proof.
  induction 1 as [|x y' l k Hxy _ IH]; intros Hin; [done|].
  destruct Hin as [<- | Hin].
  - exists x. split; [by left|done].
  - destruct (IH Hin) as (x' & Hx' & HR). exists x'. split; [by right|done].
Qed.

Lemma from_purchase_mono st st' m :
  (∀ d, In d (purchases st) → In d (purchases st')) →
  from_purchase st m → from_purchase st' m.
Proof.
  intros Hsub (d & line & Hd & Hline & Hrec). exists d, line. auto.
Qed.

Lemma from_sale_mono st st' m :
  (∀ d, In d (sales st) → In d (sales st')) →
  from_sale st m → from_sale st' m.
Proof.
  intros Hsub (d & line & Hd & Hline & Hrec). exists d, line. auto.
Qed.

(** [create_item] writes to the items only. *)
Lemma create_item_frame payload st :
  purchases (snd (create_item payload st)) = purchases st
  ∧ sales (snd (create_item payload st)) = sales st
  ∧ stockmovements (snd (create_item payload st)) = stockmovements st.
Proof. by destruct (create_item_cases payload st) as [[-> _] | [-> _]]. Qed.

(** X7: every stock movement is on file.  When the requests served pass
    the validation of their schemas, a store in which every stock movement
    stems from a line of a stored purchase (as an "in" movement referring to
    it) or of a stored sale (as an "out" movement) is again such a store
    afterwards: the handlers store no movement of any other type, and none
    without its purchase or sale. *)
Theorem movements_stay_on_file rs st :
  Forall (fun r => passes_validation r = true) rs →
  Forall (fun m => from_purchase st m ∨ from_sale st m) (stockmovements st) →
  Forall (fun m => from_purchase (serve_all rs st) m
                   ∨ from_sale (serve_all rs st) m)
    (stockmovements (serve_all rs st)).
Proof.
  intros Hvalid Hst.
  induction rs as [|r rs IH] using rev_ind; [done|].
  apply Forall_app in Hvalid as [Hrs Hr]. apply Forall_inv in Hr.
  specialize (IH Hrs). rewrite serve_all_snoc.
  set (s := serve_all rs st) in *. clearbody s. clear Hst Hrs.
  rewrite List.Forall_forall in IH. apply List.Forall_forall.
  destruct r as [payload | utcnow payload | utcnow payload | ];
    simpl in *; intros m Hm.
  - destruct (create_item_frame payload s) as (Hp & Hs & Hms).
    rewrite Hms in Hm.
    destruct (IH m Hm) as [H | H]; [left | right].
    + eapply from_purchase_mono; [|exact H]. intros d. by rewrite Hp.
    + eapply from_sale_mono; [|exact H]. intros d. by rewrite Hs.
  - destruct (create_purchase_run utcnow payload s
                (purchase_lines_valid _ Hr))
      as (s' & new & Hrun & _ & Hp & Hs & Hms & Hall).
    rewrite Hrun in *. simpl in *. rewrite Hms in Hm.
    apply in_app_or in Hm as [Hm | Hm].
    + destruct (IH m Hm) as [H | H]; [left | right].
      * eapply from_purchase_mono; [|exact H].
        intros d Hd. rewrite Hp. apply in_or_app. by left.
      * eapply from_sale_mono; [|exact H]. intros d. by rewrite Hs.
    + left. destruct (Forall2_In_r _ _ _ _ Hall Hm) as (line & Hline & Hrec).
      exists (PurchaseDoc.Build_t (next_oid s) payload), line.
      split; [|done]. rewrite Hp. apply in_or_app. right. by left.
  - destruct (create_sale_run utcnow payload s (sale_lines_valid _ Hr))
      as (s' & new & Hrun & _ & Hp & Hs & Hms & Hall).
    rewrite Hrun in *. simpl in *. rewrite Hms in Hm.
    apply in_app_or in Hm as [Hm | Hm].
    + destruct (IH m Hm) as [H | H]; [left | right].
      * eapply from_purchase_mono; [|exact H]. intros d. by rewrite Hp.
      * eapply from_sale_mono; [|exact H].
        intros d Hd. rewrite Hs. apply in_or_app. by left.
    + right. destruct (Forall2_In_r _ _ _ _ Hall Hm) as (line & Hline & Hrec).
      exists (SaleDoc.Build_t (next_oid s) payload), line.
      split; [|done]. rewrite Hs. apply in_or_app. right. by left.
  - by apply IH.
Qed.

Lemma movements_stay_on_file_witness :
  Forall (fun m => from_purchase (serve_all morning empty_store) m
                   ∨ from_sale (serve_all morning empty_store) m)
    (stockmovements (serve_all morning empty_store)).
Proof.
  apply (movements_stay_on_file morning empty_store).
  - repeat constructor.
  - constructor.
Defined.

Lemma list_sum_snoc l n : list_sum (l ++ [n]) = (list_sum l + n)%nat.
Proof. rewrite list_sum_app. simpl. lia. Qed.

(** X8: a movement for every line on file.  When the requests served pass
    the validation of their schemas, a store that holds as many stock
    movements as its purchases and sales have lines still does so
    afterwards. *)
Theorem movements_match_lines_on_file rs st :
  Forall (fun r => passes_validation r = true) rs →
  length (stockmovements st) = lines_on_file st →
  length (stockmovements (serve_all rs st))
  = lines_on_file (serve_all rs st).
Proof.
  intros Hvalid Hst.
  induction rs as [|r rs IH] using rev_ind; [done|].
  apply Forall_app in Hvalid as [Hrs Hr]. apply Forall_inv in Hr.
  specialize (IH Hrs). rewrite serve_all_snoc.
  set (s := serve_all rs st) in *. clearbody s. clear Hst Hrs.
  unfold lines_on_file in *.
  destruct r as [payload | utcnow payload | utcnow payload | ]; simpl in *.
  - destruct (create_item_frame payload s) as (-> & -> & ->). done.
  - destruct (create_purchase_run utcnow payload s
                (purchase_lines_valid _ Hr))
      as (s' & new & Hrun & _ & Hp & Hs & Hms & Hall).
    rewrite Hrun. simpl. rewrite Hp, Hs, Hms, length_app, map_app.
    simpl. rewrite list_sum_snoc, <- (Forall2_length _ _ _ Hall). lia.
  - destruct (create_sale_run utcnow payload s (sale_lines_valid _ Hr))
      as (s' & new & Hrun & _ & Hp & Hs & Hms & Hall).
    rewrite Hrun. simpl. rewrite Hp, Hs, Hms, length_app, map_app.
    simpl. rewrite list_sum_snoc, <- (Forall2_length _ _ _ Hall). lia.
  - done.
Qed.

Lemma movements_match_lines_on_file_witness :
  length (stockmovements (serve_all morning empty_store))
  = lines_on_file (serve_all morning empty_store).
Proof.
  apply (movements_match_lines_on_file morning empty_store).
  - repeat constructor.
  - reflexivity.
Defined.

(** The loop over the lines only appends to the stock movements, whether it
    completes or raises on the way. *)
Lemma for_each_grows {A} (mk : nat → A → Py.result StockMovement.t)
    (lines : list A) : ∀ i st,
  ∃ new,
    stockmovements
      (snd (for_each (fun j line =>
                        movement ← lift (mk j line);
                        create_document stockmovement movement ;; mret tt)
              i lines st))
    = stockmovements st ++ new.
Proof.
  induction lines as [|line lines IH]; intros i st.
  { exists []. by rewrite app_nil_r. }
  cbn [for_each].
  match goal with
  | |- context [(?m ≫= ?k) st] =>
      destruct (bind_cases m k st) as [(e & Hm & ->) | (a & Hm & ->)];
      assert (Hone : ∃ new, stockmovements (snd (m st))
                            = stockmovements st ++ new)
  end.
  1,3: unfold mbind, M_bind, lift; destruct (mk i line);
       [exists []; by rewrite app_nil_r | by eexists].
  - done.
  - destruct Hone as (new1 & Hnew1).
    match goal with
    | |- context [for_each ?body (S i) lines ?s] =>
        destruct (IH (S i) s) as (new2 & Hnew2)
    end.
    exists (new1 ++ new2). by rewrite Hnew2, Hnew1, app_assoc.
Qed.

Lemma create_purchase_grows utcnow payload st :
  let st' := snd (create_purchase utcnow payload st) in
  items st' = items st
  ∧ purchases st'
    = purchases st ++ [PurchaseDoc.Build_t (next_oid st) payload]
  ∧ sales st' = sales st
  ∧ ∃ new, stockmovements st' = stockmovements st ++ new.
Proof.
  unfold create_purchase.
  erewrite bind_ok; [|reflexivity].
  match goal with
  | |- context [(?m ≫= ?k) ?s] =>
      destruct (bind_cases m k s) as [(e & Hm & ->) | (a & Hm & ->)];
      pose proof (for_each_frame
        (fun (j : nat) line =>
           StockMovement.make (PurchaseItem.item_id line) "in"
             (PurchaseItem.qty line) "purchase" (Some "purchase")
             (Some (Bson.str (next_oid st))) (Some (utcnow j)))
        (Purchase.items payload) 0 s) as (Hi & Hp & Hs);
      destruct (for_each_grows
        (fun (j : nat) line =>
           StockMovement.make (PurchaseItem.item_id line) "in"
             (PurchaseItem.qty line) "purchase" (Some "purchase")
             (Some (Bson.str (next_oid st))) (Some (utcnow j)))
        (Purchase.items payload) 0 s) as (new & Hnew)
  end; rewrite ?ret_run; cbn [snd] in *; rewrite Hi, Hp, Hs, Hnew;
    repeat split; by exists new.
Qed.

Lemma create_sale_grows utcnow payload st :
  let st' := snd (create_sale utcnow payload st) in
  items st' = items st
  ∧ purchases st' = purchases st
  ∧ sales st' = sales st ++ [SaleDoc.Build_t (next_oid st) payload]
  ∧ ∃ new, stockmovements st' = stockmovements st ++ new.
Proof.
  unfold create_sale.
  erewrite bind_ok; [|reflexivity].
  match goal with
  | |- context [(?m ≫= ?k) ?s] =>
      destruct (bind_cases m k s) as [(e & Hm & ->) | (a & Hm & ->)];
      pose proof (for_each_frame
        (fun (j : nat) line =>
           StockMovement.make (SaleItem.item_id line) "out"
             (SaleItem.qty line) "sale" (Some "sale")
             (Some (Bson.str (next_oid st))) (Some (utcnow j)))
        (Sale.items payload) 0 s) as (Hi & Hp & Hs);
      destruct (for_each_grows
        (fun (j : nat) line =>
           StockMovement.make (SaleItem.item_id line) "out"
             (SaleItem.qty line) "sale" (Some "sale")
             (Some (Bson.str (next_oid st))) (Some (utcnow j)))
        (Sale.items payload) 0 s) as (new & Hnew)
  end; rewrite ?ret_run; cbn [snd] in *; rewrite Hi, Hp, Hs, Hnew;
    repeat split; by exists new.
Qed.

(** X9: the collections only grow.  Whatever requests are served, valid or
    not, accepted or rejected, every document of the store is still there
    afterwards, unchanged and in the same place: each collection is the
    collection before followed by the documents added.  No handler updates
    or deletes, and a handler that raises takes nothing back. *)
Theorem collections_only_grow rs st :
  ∃ new_items new_purchases new_sales new_movements,
    items (serve_all rs st) = items st ++ new_items
    ∧ purchases (serve_all rs st) = purchases st ++ new_purchases
    ∧ sales (serve_all rs st) = sales st ++ new_sales
    ∧ stockmovements (serve_all rs st) = stockmovements st ++ new_movements.
Proof.
  induction rs as [|r rs IH] using rev_ind.
  { exists [], [], [], []. by rewrite !app_nil_r. }
  destruct IH as (ni & np & ns & nm & Hi & Hp & Hs & Hm).
  rewrite serve_all_snoc. set (s := serve_all rs st) in *. clearbody s.
  destruct r as [payload | utcnow payload | utcnow payload | ]; simpl.
  - destruct (create_item_frame payload s) as (-> & -> & ->).
    destruct (create_item_cases payload s) as [[-> _] | [-> _]].
    + by exists ni, np, ns, nm.
    + exists (ni ++ [ItemDoc.of_model (next_oid s) payload]), np, ns, nm.
      simpl. by rewrite Hi, app_assoc.
  - destruct (create_purchase_grows utcnow payload s)
      as (-> & -> & -> & new & ->).
    exists ni, (np ++ [PurchaseDoc.Build_t (next_oid s) payload]), ns,
      (nm ++ new).
    by rewrite Hi, Hp, Hs, Hm, !app_assoc.
  - destruct (create_sale_grows utcnow payload s)
      as (-> & -> & -> & new & ->).
    exists ni, np, (ns ++ [SaleDoc.Build_t (next_oid s) payload]),
      (nm ++ new).
    by rewrite Hi, Hp, Hs, Hm, !app_assoc.
  - by exists ni, np, ns, nm.
Qed.

(** ** What the report reads of a movement *)

Lemma tally_reads qty_map m m' :
  movement_key m = movement_key m' →
  MovementDoc.type m = MovementDoc.type m' →
  Py.float_or_0 (MovementDoc.qty m) = Py.float_or_0 (MovementDoc.qty m') →
  tally qty_map m = tally qty_map m'.
Proof. intros Hk Ht Hq. unfold tally. by rewrite Hk, Ht, Hq. Qed.

(** X10: of a stock movement the report reads the item key, the type and
    the quantity, and nothing else.  Two ledgers whose movements agree, one
    by one, on these give the same report: an [item_id] stored as an
    ObjectId counts like the same id stored as a string, a missing [qty]
    counts like a [qty] of 0, and [reason], [ref_type], [ref_id], [date] and
    the movement's own [_id] do not matter. *)
Theorem report_reads_key_type_qty items ms ms' :
  Forall2 (fun m m' =>
             movement_key m = movement_key m'
             ∧ MovementDoc.type m = MovementDoc.type m'
             ∧ Py.float_or_0 (MovementDoc.qty m)
               = Py.float_or_0 (MovementDoc.qty m')) ms ms' →
  compute_stock_report items ms = compute_stock_report items ms'.
Proof.
  intros Hall. unfold compute_stock_report. f_equal.
  generalize (opening_map items).
  induction Hall as [|m m' ms ms' (Hk & Ht & Hq) _ IH]; intros qty_map;
    [done|].
  simpl. rewrite (tally_reads qty_map m m' Hk Ht Hq).
  destruct (tally qty_map m') as [e|qty_map']; [done|]. simpl. apply IH.
Qed.

Lemma report_reads_key_type_qty_witness :
  compute_stock_report [bulk; screws]
    [screws_receipt;
     sample_movement 1%N (Some (IdStr (Bson.str 0%N))) (Some "out") 0]
  = compute_stock_report [bulk; screws]
      [ {| MovementDoc._id := 8%N;
           MovementDoc.item_id := Some (IdStr (Bson.str 6%N));
           MovementDoc.type := Some "in"; MovementDoc.qty := Some 8%float;
           MovementDoc.reason := Some "purchase";
           MovementDoc.ref_type := Some "purchase";
           MovementDoc.ref_id := Some (Bson.str 3%N);
           MovementDoc.date := Some 12%Z |};
        {| MovementDoc._id := 9%N;
           MovementDoc.item_id := Some (IdOid 0%N);
           MovementDoc.type := Some "out"; MovementDoc.qty := None;
           MovementDoc.reason := None; MovementDoc.ref_type := None;
           MovementDoc.ref_id := None; MovementDoc.date := None |} ].
Proof.
  apply (report_reads_key_type_qty [bulk; screws]).
  repeat constructor.
Defined.
